(** * LLM response cache: a shallow embedding of
      [app/core/cache/llm_cache.py] and [app/core/cache/cached_gateway.py].

    Conventions of the embedding.
    - A Python value that travels through JSON is a [json] term; a Python
      [dict] is an association list in insertion order whose keys are
      pairwise distinct.
    - A Python [str] is a Rocq [string]; each character is read as one code
      point below 256.
    - A Python [float] is idealised as a rational ([Q]): a sum, a difference
      or a quotient is exact (true division of two [int]s included), and
      there is no NaN and no infinity.  The conversion of an [int] operand of
      [time.time() - x] to a float is Python's own: to the nearest double, an
      [OverflowError] beyond the largest one.
    - [time.time()] is an effect: every call consumes the next reading of a
      clock oracle carried by the world.
    - Storage operations themselves do not fail ([IOError] never arises) and
      files are text; a stored file either is JSON text or is not.
    - The functions of the Python runtime that the cache calls but does not
      define ([hashlib.sha256(..).hexdigest()], [float.__repr__], the
      builtin [round], the byte size of a stored file) are parameters of the
      development. *)

From Stdlib Require Import ZArith QArith Qround String Ascii List Lia DecimalString.
From Stdlib Require Import Sorting.Sorted.
From stdpp Require Import base option list sorting strings gmap.

Set Warnings "-register-all".
Local Open Scope Z_scope.
Local Open Scope string_scope.

(** ** JSON values, as Python holds them after [json.load] *)

Inductive json : Type :=
| JNull
| JBool (b : bool)
| JInt (z : Z)
| JFloat (q : Q)
| JStr (s : string)
| JArr (xs : list json)
| JObj (kvs : list (string * json)).

(** A Python dict with string keys: insertion-ordered, keys distinct. *)
Abbreviation dict := (list (string * json)).

Fixpoint dict_get (k : string) (d : dict) : option json :=
  match d with
  | [] => None
  | (k', v) :: d' => if String.eqb k k' then Some v else dict_get k d'
  end.

(** [d[k] = v]: an existing key keeps its position, a new key goes last. *)
Fixpoint dict_set (k : string) (v : json) (d : dict) : dict :=
  match d with
  | [] => [(k, v)]
  | (k', v') :: d' =>
      if String.eqb k k' then (k, v) :: d' else (k', v') :: dict_set k v d'
  end.

(** [{**d, **kw}] *)
Definition dict_update (d kw : dict) : dict :=
  fold_left (fun acc kv => dict_set (fst kv) (snd kv) acc) kw d.

Definition dict_keys (d : dict) : list string := map fst d.

(** Python truthiness ([if x:]) of a JSON-born value. *)
Definition py_truthy (j : json) : bool :=
  match j with
  | JNull => false
  | JBool b => b
  | JInt z => negb (z =? 0)%Z
  | JFloat q => negb (Qeq_bool q 0)
  | JStr s => negb (String.eqb s "")
  | JArr xs => match xs with [] => false | _ => true end
  | JObj kvs => match kvs with [] => false | _ => true end
  end.

(** ** [json.dumps(.., sort_keys=True)] *)

(** [sorted(d.items())]: keys are distinct strings, so only keys are ever
    compared; the order is that of code points. *)
Fixpoint insert_item {V} (x : string * V) (l : list (string * V)) : list (string * V) :=
  match l with
  | [] => [x]
  | y :: l' => if String.ltb (fst x) (fst y) then x :: y :: l' else y :: insert_item x l'
  end.

Definition sorted_items {V} (l : list (string * V)) : list (string * V) :=
  fold_right insert_item [] l.

Definition hex_digit (n : N) : ascii :=
  match n with
  | 0 => "0" | 1 => "1" | 2 => "2" | 3 => "3" | 4 => "4" | 5 => "5" | 6 => "6"
  | 7 => "7" | 8 => "8" | 9 => "9" | 10 => "a" | 11 => "b" | 12 => "c"
  | 13 => "d" | 14 => "e" | _ => "f"
  end%N%char.

(** The double quote, code point 34. *)
Definition dquote : ascii := "034"%char.

(** One character of a string literal under [ensure_ascii=True]: the quote
    and the backslash are escaped, a character outside [' '..'~'] becomes its
    short escape or [\u00XX]. *)
Definition escape_char (c : ascii) : string :=
  let n := N_of_ascii c in
  if (n =? 34)%N then String "\" (String dquote EmptyString)
  else if (n =? 92)%N then String "\" (String "\" EmptyString)
  else if (n =? 10)%N then String "\" "n"
  else if (n =? 13)%N then String "\" "r"
  else if (n =? 9)%N then String "\" "t"
  else if (n =? 8)%N then String "\" "b"
  else if (n =? 12)%N then String "\" "f"
  else if ((n <? 32) || (126 <? n))%N
       then String "\" ("u00" +:+ String (hex_digit (n / 16)) (String (hex_digit (n mod 16)) EmptyString))
       else String c EmptyString.

Fixpoint escape_chars (s : string) : string :=
  match s with
  | EmptyString => EmptyString
  | String c s' => escape_char c +:+ escape_chars s'
  end.

Definition encode_basestring_ascii (s : string) : string :=
  String dquote (escape_chars s +:+ String dquote EmptyString).

Definition int_repr (z : Z) : string := NilZero.string_of_int (Z.to_int z).

Fixpoint join (sep : string) (l : list string) : string :=
  match l with
  | [] => EmptyString
  | [x] => x
  | x :: l' => x +:+ sep +:+ join sep l'
  end.

(** ** Files and the Python runtime *)

(** What [json.load] finds in a stored file: text that is not JSON, or a
    JSON document. *)
Inductive file : Type :=
| NotJson (raw : string)
| JsonText (doc : json).

(** The runtime functions the cache relies on and does not define. *)
Class PyRuntime : Type := {
  (** [hashlib.sha256(s.encode()).hexdigest()] *)
  sha256_hexdigest : string -> string;
  (** [float.__repr__], which [json.dumps] uses for floats *)
  float_repr : Q -> string;
  (** [Path.stat().st_size] of a stored file *)
  st_size : file -> Z;
  (** the builtin [round(x, ndigits)] on a float *)
  py_round : Q -> nat -> Q
}.

Section Keys.
Context `{PyRuntime}.

Fixpoint json_dumps (j : json) : string :=
  match j with
  | JNull => "null"
  | JBool true => "true"
  | JBool false => "false"
  | JInt z => int_repr z
  | JFloat q => float_repr q
  | JStr s => encode_basestring_ascii s
  | JArr xs => "[" +:+ join ", " (map json_dumps xs) +:+ "]"
  | JObj kvs =>
      let items := sorted_items (map (fun kv => (fst kv, json_dumps (snd kv))) kvs) in
      "{" +:+ join ", " (map (fun kv => encode_basestring_ascii (fst kv) +:+ ": " +:+ snd kv) items) +:+ "}"
  end.

(** ** [LLMCache._compute_cache_key], [_compute_prompt_hash] *)

Definition opt_float (t : option Q) : json :=
  match t with None => JNull | Some q => JFloat q end.

Definition _compute_cache_key (provider model prompt : string)
    (temperature : option Q) (kwargs : dict) : string :=
  let params :=
    dict_update
      [("provider", JStr provider); ("model", JStr model);
       ("prompt", JStr prompt); ("temperature", opt_float temperature)]
      kwargs in
  let params_str := json_dumps (JObj params) in
  sha256_hexdigest params_str.

Definition _compute_prompt_hash (prompt : string) : string :=
  substring 0 16 (sha256_hexdigest prompt).

End Keys.


(** ** Exceptions, the world, and the monad of effectful code *)

Inductive exn : Type :=
| TypeError
| OverflowError
| KeyError
| AttributeError
| JSONDecodeError
| IOError
| OtherError (name : string).

Inductive result (A : Type) : Type :=
| Ok (a : A)
| Raise (e : exn).
Arguments Ok {A} a.
Arguments Raise {A} e.

(** Modelled from the spec: the request type [PromptBundle]
    ([app/core/translation/models/prompt.py] is not among the sources).  A
    request carries an ordered list of role-tagged messages, here already in
    the form [to_openai_format()] returns, plus [temperature] and
    [max_tokens]. *)
Record PromptBundle : Type := mkBundle {
  to_openai_format : json;
  temperature : Q;
  max_tokens : Z
}.

(** One invocation of the wrapped gateway, as recorded by the world. *)
Inductive upstream_event : Type :=
| CallEv (bundle : PromptBundle)
| StreamEv (bundle : PromptBundle).

(** The world: the [llm_responses] directory of the project (file stem to
    content), the clock oracle with the number of readings consumed so far,
    and the log of requests forwarded to the wrapped gateway. *)
Record World : Type := mkWorld {
  files : gmap string file;
  clock : nat -> Q;
  ticks : nat;
  upstream : list upstream_event
}.

Definition M (A : Type) : Type := World -> result A * World.

Definition ret {A} (a : A) : M A := fun w => (Ok a, w).
Definition raise {A} (e : exn) : M A := fun w => (Raise e, w).
Definition bind {A C} (m : M A) (k : A -> M C) : M C :=
  fun w => match m w with
           | (Ok a, w') => k a w'
           | (Raise e, w') => (Raise e, w')
           end.
Definition lift {A} (r : result A) : M A := fun w => (r, w).

Notation "'let*' x ':=' m 'in' k" := (bind m (fun x => k))
  (at level 10, x name, m at level 100, k at level 200, only parsing).
Notation "m ';;' k" := (bind m (fun _ => k))
  (at level 100, k at level 200, right associativity, only parsing).

(** [try: body except (classes): handler] *)
Definition try_except {A} (body : M A) (caught : exn -> bool) (handler : M A) : M A :=
  fun w => match body w with
           | (Ok a, w') => (Ok a, w')
           | (Raise e, w') => if caught e then handler w' else (Raise e, w')
           end.

(** [time.time()] *)
Definition time_time : M Q :=
  fun w => (Ok (clock w (ticks w)),
            mkWorld (files w) (clock w) (S (ticks w)) (upstream w)).

Definition set_files (fs : gmap string file) (w : World) : World :=
  mkWorld fs (clock w) (ticks w) (upstream w).

(** [cache_path.exists()] *)
Definition path_exists (name : string) : M bool :=
  fun w => (Ok (bool_decide (is_Some (files w !! name))), w).

(** [with open(path, "r") as f: json.load(f)] *)
Definition json_load (f : file) : result json :=
  match f with
  | NotJson _ => Raise JSONDecodeError
  | JsonText doc => Ok doc
  end.

Definition read_json (name : string) : M json :=
  fun w => match files w !! name with
           | None => (Raise IOError, w)
           | Some f => (json_load f, w)
           end.

(** [with open(path, "w") as f: json.dump(doc, f, ensure_ascii=False, indent=2)] *)
Definition write_json (name : string) (doc : json) : M unit :=
  fun w => (Ok tt, set_files (<[name := JsonText doc]> (files w)) w).

(** [path.unlink()] of a file known to exist, and [path.unlink(missing_ok=True)] *)
Definition unlink (name : string) : M unit :=
  fun w => (Ok tt, set_files (delete name (files w)) w).

(** ** Numbers as Python computes with them *)

Definition as_number (j : json) : option Q :=
  match j with
  | JInt z => Some (inject_Z z)
  | JFloat q => Some q
  | JBool b => Some (inject_Z (Z.b2z b))
  | _ => None
  end.

(** [a / 2^e] as an integer, to the nearest, a tie going to the even one. *)
Definition nearest_even (a e : Z) : Z :=
  let q := a / 2 ^ e in
  match Z.compare (2 * (a mod 2 ^ e)) (2 ^ e) with
  | Lt => q
  | Gt => q + 1
  | Eq => if Z.even q then q else q + 1
  end.

(** The float an [int] operand of float arithmetic is converted to: the
    nearest double (53 significant bits, a tie going to the even one), and
    an [OverflowError] when that is beyond the largest double. *)
Definition float_of_int (z : Z) : result Q :=
  let a := Z.abs z in
  if (a <? 2 ^ 53)%Z then Ok (inject_Z z)
  else
    let e := Z.log2 a - 52 in
    let r := nearest_even a e * 2 ^ e in
    if (r <? 2 ^ 1024)%Z then Ok (inject_Z (Z.sgn z * r)) else Raise OverflowError.

(** The right operand of float arithmetic as a float: an [int] (a [bool] is
    one) is converted, anything that is not a number is a [TypeError]. *)
Definition as_float (j : json) : result Q :=
  match j with
  | JFloat q => Ok q
  | JInt z => float_of_int z
  | JBool b => Ok (inject_Z (Z.b2z b))
  | _ => Raise TypeError
  end.

(** [x - y] for a float [x] *)
Definition float_sub (x : Q) (y : json) : result Q :=
  match as_float y with
  | Ok q => Ok (x - q)%Q
  | Raise e => Raise e
  end.

(** [x > y] for a float [x] *)
Definition float_gt (x : Q) (y : json) : result bool :=
  match as_number y with
  | Some q => Ok (negb (Qle_bool x q))
  | None => Raise TypeError
  end.

(** [x + y] where [y] is a number: integers stay integers, a float operand
    makes a float, anything else is a [TypeError]. *)
Definition num_add (x y : json) : result json :=
  match x, y with
  | JInt a, JInt b => Ok (JInt (a + b))
  | JInt a, JBool b => Ok (JInt (a + Z.b2z b))
  | JBool a, JInt b => Ok (JInt (Z.b2z a + b))
  | JBool a, JBool b => Ok (JInt (Z.b2z a + Z.b2z b))
  | _, _ =>
      match as_number x, as_number y with
      | Some a, Some b => Ok (JFloat (a + b)%Q)
      | _, _ => Raise TypeError
      end
  end.

(** [x == y] on JSON-born values: numbers (booleans included) compare by
    value, containers structurally, a dict whatever the order of its keys. *)
Fixpoint py_eq (a b : json) {struct a} : bool :=
  match a, b with
  | JNull, JNull => true
  | JStr s, JStr s' => String.eqb s s'
  | JArr xs, JArr ys =>
      (fix go (xs ys : list json) {struct xs} : bool :=
         match xs, ys with
         | [], [] => true
         | x :: xs', y :: ys' => py_eq x y && go xs' ys'
         | _, _ => false
         end) xs ys
  | JObj kvs, JObj kvs' =>
      Nat.eqb (length kvs) (length kvs') &&
      forallb (fun kv => match dict_get (fst kv) kvs' with
                         | Some v' => py_eq (snd kv) v'
                         | None => false
                         end) kvs
  | _, _ =>
      match as_number a, as_number b with
      | Some x, Some y => Qeq_bool x y
      | _, _ => false
      end
  end.

(** [x < y]: numbers with numbers, strings with strings, lists with lists
    (at the first unequal position, else by length); a [TypeError]
    otherwise. *)
Fixpoint py_lt (a b : json) {struct a} : result bool :=
  match a, b with
  | JStr s, JStr s' => Ok (String.ltb s s')
  | JArr xs, JArr ys =>
      (fix go (xs ys : list json) {struct xs} : result bool :=
         match xs, ys with
         | [], [] => Ok false
         | [], _ :: _ => Ok true
         | _ :: _, [] => Ok false
         | x :: xs', y :: ys' => if py_eq x y then go xs' ys' else py_lt x y
         end) xs ys
  | _, _ =>
      match as_number a, as_number b with
      | Some x, Some y => Ok (negb (Qle_bool y x))
      | _, _ => Raise TypeError
      end
  end.

(** [x / n] for a number [x] and a non-zero integer [n] *)
Definition num_div (x : json) (n : Z) : result Q :=
  match as_number x with
  | Some q => Ok (q / inject_Z n)%Q
  | None => Raise TypeError
  end.

Fixpoint for_each {A S} (step : S -> A -> M S) (l : list A) (s : S) : M S :=
  match l with
  | [] => ret s
  | x :: l' => let* s' := step s x in for_each step l' s'
  end.

(** ** [CacheEntry] *)

Module CacheEntry.

(** The dataclass performs no type checking: every field holds whatever
    JSON value the file (or the caller) supplied. *)
Record t : Type := mk {
  response : json;
  cache_key : json;
  provider : json;
  model : json;
  prompt_hash : json;
  created_at : json;
  accessed_at : json;
  access_count : json;
  ttl_seconds : json;
  request_metadata : json
}.

Definition field_names : list string :=
  ["response"; "cache_key"; "provider"; "model"; "prompt_hash"; "created_at";
   "accessed_at"; "access_count"; "ttl_seconds"; "request_metadata"].

(** [cls] called with the keywords of [data]: a [TypeError] unless [data] is a mapping whose keys are
    exactly the ten field names. *)
Definition from_dict (data : json) : result t :=
  match data with
  | JObj kvs =>
      if forallb (fun k => existsb (String.eqb k) field_names) (dict_keys kvs) then
        match dict_get "response" kvs, dict_get "cache_key" kvs,
              dict_get "provider" kvs, dict_get "model" kvs,
              dict_get "prompt_hash" kvs, dict_get "created_at" kvs,
              dict_get "accessed_at" kvs, dict_get "access_count" kvs,
              dict_get "ttl_seconds" kvs, dict_get "request_metadata" kvs with
        | Some r, Some k, Some p, Some m, Some h, Some c, Some a, Some n, Some l, Some q =>
            Ok (mk r k p m h c a n l q)
        | _, _, _, _, _, _, _, _, _, _ => Raise TypeError
        end
      else Raise TypeError
  | _ => Raise TypeError
  end.

(** [asdict(self)] *)
Definition to_dict (e : t) : json :=
  JObj [("response", response e); ("cache_key", cache_key e);
        ("provider", provider e); ("model", model e);
        ("prompt_hash", prompt_hash e); ("created_at", created_at e);
        ("accessed_at", accessed_at e); ("access_count", access_count e);
        ("ttl_seconds", ttl_seconds e); ("request_metadata", request_metadata e)].

Definition is_expired (e : t) : M bool :=
  match ttl_seconds e with
  | JNull => ret false
  | ttl =>
      let* now := time_time in
      let* age_seconds := lift (float_sub now (created_at e)) in
      lift (float_gt age_seconds ttl)
  end.

Definition update_access (e : t) : M t :=
  let* now := time_time in
  let e1 := mk (response e) (cache_key e) (provider e) (model e) (prompt_hash e)
               (created_at e) (JFloat now) (access_count e) (ttl_seconds e)
               (request_metadata e) in
  let* count := lift (num_add (access_count e1) (JInt 1)) in
  ret (mk (response e1) (cache_key e1) (provider e1) (model e1) (prompt_hash e1)
          (created_at e1) (accessed_at e1) count (ttl_seconds e1)
          (request_metadata e1)).

End CacheEntry.

(** ** [LLMCache] *)

(** [a or b] for an [Optional[int]] [a]: [None] and [0] are falsy. *)
Definition int_or (a : option Z) (b : Z) : Z :=
  match a with
  | Some z => if (z =? 0)%Z then b else z
  | None => b
  end.

Module LLMCache.

Definition DEFAULT_TTL_SECONDS : Z := 30 * 24 * 60 * 60.

(** The directories of the instance are the [files] of the world. *)
Record t : Type := mk {
  project_id : string;
  ttl_seconds : Z
}.

Definition __init__ (project_id : string) (ttl_seconds : option Z) : t :=
  mk project_id (int_or ttl_seconds DEFAULT_TTL_SECONDS).

Section Operations.
Context `{PyRuntime}.

(** The exceptions [get] and [get_stats] catch. *)
Definition invalid_cache_file (e : exn) : bool :=
  match e with
  | JSONDecodeError | KeyError | IOError => true
  | _ => false
  end.

Definition get (self : t) (provider model prompt : string)
    (temperature : option Q) (kwargs : dict) : M json :=
  let cache_key := _compute_cache_key provider model prompt temperature kwargs in
  let* present := path_exists cache_key in
  if negb present then ret JNull
  else
    try_except
      (let* data := read_json cache_key in
       let* entry := lift (CacheEntry.from_dict data) in
       let* expired := CacheEntry.is_expired entry in
       if expired then
         (unlink cache_key ;; ret JNull)
       else
         let* entry' := CacheEntry.update_access entry in
         (write_json cache_key (CacheEntry.to_dict entry') ;;
          ret (CacheEntry.response entry')))
      invalid_cache_file
      (unlink cache_key ;; ret JNull).

Definition set (self : t) (provider model prompt : string) (response : json)
    (temperature : option Q) (ttl_seconds : option Z) (kwargs : dict) : M string :=
  let cache_key := _compute_cache_key provider model prompt temperature kwargs in
  let prompt_hash := _compute_prompt_hash prompt in
  let* created := time_time in
  let* accessed := time_time in
  let entry :=
    CacheEntry.mk response (JStr cache_key) (JStr provider) (JStr model)
      (JStr prompt_hash) (JFloat created) (JFloat accessed) (JInt 1)
      (JInt (int_or ttl_seconds (LLMCache.ttl_seconds self)))
      (JObj (dict_update [("temperature", opt_float temperature)] kwargs)) in
  (write_json cache_key (CacheEntry.to_dict entry) ;;
   ret cache_key).

Definition invalidate (self : t) (cache_key : string) : M bool :=
  let* present := path_exists cache_key in
  if present then (unlink cache_key ;; ret true) else ret false.

(** The local variables of the scan in [get_stats]. *)
Record scan : Type := mkScan {
  total_entries : Z;
  expired_entries : Z;
  total_size_bytes : Z;
  total_accesses : json;
  oldest_entry : json;
  newest_entry : json
}.

Record stats : Type := mkStats {
  stat_total_entries : Z;
  stat_expired_entries : Z;
  stat_active_entries : Z;
  stat_total_size_bytes : Z;
  stat_total_size_mb : Q;
  stat_total_accesses : json;
  stat_avg_accesses_per_entry : json;
  stat_oldest_entry_age_days : json;
  stat_newest_entry_age_days : json
}.

(** One iteration of the loop over [glob("*.json")].  The size is added
    before the file is read; of the exceptions the handler catches, only the
    [JSONDecodeError] of [json.load] can arise, when no other variable has
    changed yet, so the handler resumes from [a1]. *)
Definition scan_file (a : scan) (cache_file : string * file) : M scan :=
  let a1 := mkScan (total_entries a) (expired_entries a)
              (total_size_bytes a + st_size (snd cache_file))
              (total_accesses a) (oldest_entry a) (newest_entry a) in
  try_except
    (let* data := lift (json_load (snd cache_file)) in
     let* entry := lift (CacheEntry.from_dict data) in
     let total := total_entries a1 + 1 in
     let* accesses := lift (num_add (total_accesses a1) (CacheEntry.access_count entry)) in
     let* expired := CacheEntry.is_expired entry in
     let expired_n := if expired then expired_entries a1 + 1 else expired_entries a1 in
     let created := CacheEntry.created_at entry in
     let* older :=
       match oldest_entry a1 with
       | JNull => ret true
       | o => lift (py_lt created o)
       end in
     let oldest := if older then created else oldest_entry a1 in
     let* newer :=
       match newest_entry a1 with
       | JNull => ret true
       | n => lift (py_lt n created)
       end in
     let newest := if newer then created else newest_entry a1 in
     ret (mkScan total expired_n (total_size_bytes a1) accesses oldest newest))
    invalid_cache_file
    (ret a1).

(** [round((time.time() - t) / 86400, 1) if t else 0] *)
Definition age_days (t : json) : M json :=
  if py_truthy t then
    let* now := time_time in
    let* age := lift (float_sub now t) in
    ret (JFloat (py_round (age / 86400) 1))
  else ret (JInt 0).

Definition get_stats (self : t) : M stats :=
  fun w =>
    (let* a := for_each scan_file (map_to_list (files w))
                 (mkScan 0 0 0 (JInt 0) JNull JNull) in
     let size_mb := py_round (inject_Z (total_size_bytes a) / inject_Z (1024 * 1024)) 2 in
     let* avg :=
       if (total_entries a >? 0)%Z then
         let* q := lift (num_div (total_accesses a) (total_entries a)) in
         ret (JFloat (py_round q 2))
       else ret (JInt 0) in
     let* oldest_age := age_days (oldest_entry a) in
     let* newest_age := age_days (newest_entry a) in
     ret (mkStats (total_entries a) (expired_entries a)
            (total_entries a - expired_entries a)
            (total_size_bytes a) size_mb (total_accesses a)
            avg oldest_age newest_age)) w.

(** [clear_all]: every file of the directory listing is unlinked and
    counted. *)
Definition clear_all (self : t) : M Z :=
  fun w =>
    for_each (fun count cache_file => unlink (fst cache_file) ;; ret (count + 1))
      (map_to_list (files w)) 0 w.

(** One iteration of the loop of [clear_expired].  The handler runs only
    for the [JSONDecodeError] of [json.load], when [count] is still the
    value the iteration started with. *)
Definition clear_expired_file (count : Z) (cache_file : string * file) : M Z :=
  try_except
    (let* data := lift (json_load (snd cache_file)) in
     let* entry := lift (CacheEntry.from_dict data) in
     let* expired := CacheEntry.is_expired entry in
     if expired then (unlink (fst cache_file) ;; ret (count + 1))
     else ret count)
    invalid_cache_file
    (unlink (fst cache_file) ;; ret (count + 1)).

Definition clear_expired (self : t) : M Z :=
  fun w => for_each clear_expired_file (map_to_list (files w)) 0 w.

End Operations.
End LLMCache.

(** ** The registry of cache instances ([_cache_instances]) *)

Abbreviation registry := (gmap string LLMCache.t).

Definition get_cache (project_id : string) (ttl_seconds : option Z) (reg : registry)
    : LLMCache.t * registry :=
  match reg !! project_id with
  | Some cache => (cache, reg)
  | None =>
      let cache := LLMCache.__init__ project_id ttl_seconds in
      (cache, <[project_id := cache]> reg)
  end.

Definition clear_cache_instance (project_id : string) (reg : registry) : registry :=
  if bool_decide (is_Some (reg !! project_id)) then delete project_id reg else reg.

(** ** [CachedLLMGateway] *)

(** Modelled from the spec: the response types [TokenUsage] and
    [LLMResponse] ([app/core/translation/models/response.py] is not among
    the sources).  A response carries [content], [provider], [model], an
    optional raw provider payload, a latency measurement and a token-usage
    breakdown; the usage fields default to [0] when absent. *)
Record TokenUsage : Type := mkUsage {
  prompt_tokens : json;
  completion_tokens : json;
  total_tokens : json
}.

Record LLMResponse : Type := mkResponse {
  content : json;
  resp_provider : json;
  resp_model : json;
  raw_response : json;
  latency_ms : json;
  usage : TokenUsage
}.

Definition usage_field_names : list string :=
  ["prompt_tokens"; "completion_tokens"; "total_tokens"].

(** [TokenUsage] called with the keywords of [u] *)
Definition TokenUsage_of (u : json) : result TokenUsage :=
  match u with
  | JObj kvs =>
      if forallb (fun k => existsb (String.eqb k) usage_field_names) (dict_keys kvs) then
        Ok (mkUsage (default (JInt 0) (dict_get "prompt_tokens" kvs))
                    (default (JInt 0) (dict_get "completion_tokens" kvs))
                    (default (JInt 0) (dict_get "total_tokens" kvs)))
      else Raise TypeError
  | _ => Raise TypeError
  end.

(** The gateway interface the decorator wraps.  A gateway answers from the
    request and from the history of the requests it was sent before; it has
    no access to the cache directory. *)
Record LLMGateway : Type := mkGateway {
  gw_provider : string;
  gw_model : string;
  gw_call : list upstream_event -> PromptBundle -> result LLMResponse;
  gw_stream : list upstream_event -> PromptBundle -> list LLMResponse * option exn;
  gw_health_check : list upstream_event -> result bool
}.

Definition log_upstream (ev : upstream_event) (w : World) : World :=
  mkWorld (files w) (clock w) (ticks w) (upstream w ++ [ev]).

(** [await gateway.call(bundle)] *)
Definition gateway_call (g : LLMGateway) (bundle : PromptBundle) : M LLMResponse :=
  fun w => (gw_call g (upstream w) bundle, log_upstream (CallEv bundle) w).

(** A chunk sequence: the chunks yielded, then normal exhaustion ([None])
    or an exception. *)
Definition chunks : Type := list LLMResponse * option exn.

(** [gateway.stream(bundle)], run to its end *)
Definition gateway_stream (g : LLMGateway) (bundle : PromptBundle) : World -> chunks * World :=
  fun w => (gw_stream g (upstream w) bundle, log_upstream (StreamEv bundle) w).

Module CachedLLMGateway.

Record t : Type := mk {
  _gateway : LLMGateway;
  _project_id : string;
  _enable_cache : bool;
  _cache : LLMCache.t
}.

Definition __init__ (gateway : LLMGateway) (project_id : string) (enable_cache : bool)
    (ttl_seconds : option Z) (reg : registry) : t * registry :=
  let '(cache, reg') := get_cache project_id ttl_seconds reg in
  (mk gateway project_id enable_cache cache, reg').

Definition provider (self : t) : string := gw_provider (_gateway self).
Definition model (self : t) : string := gw_model (_gateway self).

Section Operations.
Context `{PyRuntime}.

Definition _prompt_bundle_to_string (bundle : PromptBundle) : string :=
  let messages := to_openai_format bundle in
  json_dumps (JObj [("messages", messages);
                    ("temperature", JFloat (temperature bundle));
                    ("max_tokens", JInt (max_tokens bundle))]).

Definition _llm_response_to_dict (response : LLMResponse) : json :=
  JObj [("content", content response);
        ("provider", resp_provider response);
        ("model", resp_model response);
        ("raw_response", raw_response response);
        ("latency_ms", latency_ms response);
        ("usage", JObj [("prompt_tokens", prompt_tokens (usage response));
                        ("completion_tokens", completion_tokens (usage response));
                        ("total_tokens", total_tokens (usage response))])].

(** [data[k]] *)
Definition dict_item (k : string) (d : dict) : result json :=
  match dict_get k d with
  | Some v => Ok v
  | None => Raise KeyError
  end.

Definition bind_result {A C} (r : result A) (k : A -> result C) : result C :=
  match r with
  | Ok a => k a
  | Raise e => Raise e
  end.

Definition _dict_to_llm_response (data : json) : result LLMResponse :=
  match data with
  | JObj kvs =>
      bind_result
        (match dict_get "usage" kvs with
         | Some u => if py_truthy u then TokenUsage_of u
                     else Ok (mkUsage (JInt 0) (JInt 0) (JInt 0))
         | None => Ok (mkUsage (JInt 0) (JInt 0) (JInt 0))
         end)
        (fun usage =>
           bind_result (dict_item "content" kvs) (fun content =>
           bind_result (dict_item "provider" kvs) (fun provider =>
           bind_result (dict_item "model" kvs) (fun model =>
           Ok (mkResponse content provider model
                 (default JNull (dict_get "raw_response" kvs))
                 (default (JInt 0) (dict_get "latency_ms" kvs))
                 usage)))))
  | _ => Raise AttributeError
  end.

Definition call (self : t) (bundle : PromptBundle) : M LLMResponse :=
  if negb (_enable_cache self) then gateway_call (_gateway self) bundle
  else
    let prompt_str := _prompt_bundle_to_string bundle in
    let* cached_response :=
      LLMCache.get (_cache self) (provider self) (model self) prompt_str
        (Some (temperature bundle)) [("max_tokens", JInt (max_tokens bundle))] in
    if py_truthy cached_response then
      lift (_dict_to_llm_response cached_response)
    else
      let* response := gateway_call (_gateway self) bundle in
      let response_dict := _llm_response_to_dict response in
      let* cache_key :=
        LLMCache.set (_cache self) (provider self) (model self) prompt_str
          response_dict (Some (temperature bundle)) None
          [("max_tokens", JInt (max_tokens bundle))] in
      ret response.

(** [async for chunk in self._gateway.stream(bundle): yield chunk] *)
Fixpoint reyield (cs : list LLMResponse) : list LLMResponse :=
  match cs with
  | [] => []
  | chunk :: cs' => chunk :: reyield cs'
  end.

Definition stream (self : t) (bundle : PromptBundle) : World -> chunks * World :=
  fun w =>
    let '((cs, stop), w') := gateway_stream (_gateway self) bundle w in
    ((reyield cs, stop), w').

Definition get_cache_stats (self : t) : M LLMCache.stats :=
  LLMCache.get_stats (_cache self).

Definition clear_cache (self : t) : M Z :=
  LLMCache.clear_all (_cache self).

Definition clear_expired_cache (self : t) : M Z :=
  LLMCache.clear_expired (_cache self).

End Operations.
End CachedLLMGateway.

(** * Vocabulary of the properties *)

(** The strict order of keys on the items of a dict. *)
Definition key_lt {V : Type} (x y : string * V) : Prop :=
  String.ltb (fst x) (fst y) = true.

(** The entry persisted under a key, when the file there holds one. *)
Definition stored_entry (w : World) (key : string) : option CacheEntry.t :=
  match files w !! key with
  | Some (JsonText data) =>
      match CacheEntry.from_dict data with
      | Ok e => Some e
      | Raise _ => None
      end
  | _ => None
  end.

(** The world after one more clock reading. *)
Definition tick (w : World) : World :=
  mkWorld (files w) (clock w) (S (ticks w)) (upstream w).

(** The entry after a recorded access at time [now] with count [count]. *)
Definition accessed (e : CacheEntry.t) (now : Q) (count : json) : CacheEntry.t :=
  CacheEntry.mk (CacheEntry.response e) (CacheEntry.cache_key e)
    (CacheEntry.provider e) (CacheEntry.model e) (CacheEntry.prompt_hash e)
    (CacheEntry.created_at e) (JFloat now) count (CacheEntry.ttl_seconds e)
    (CacheEntry.request_metadata e).


Definition is_not_json (f : file) : Prop :=
  match f with NotJson _ => True | JsonText _ => False end.

(** The rational [x] to the nearest multiple of [10^-ndigits], a tie going
    to the even one. *)
Definition round_half_even (x : Q) : Z :=
  let f := Qfloor x in
  match Qcompare (x - inject_Z f) (1 # 2) with
  | Lt => f
  | Gt => f + 1
  | Eq => if Z.even f then f else f + 1
  end.

Definition round_rational (x : Q) (ndigits : nat) : Q :=
  let scale := 10 ^ Z.of_nat ndigits in
  Qred (Qmake (round_half_even (x * inject_Z scale)) (Z.to_pos scale)).

(** A runtime to run the model on examples: the digest is the text itself,
    a float prints as numerator/denominator, a file has size 1, and [round]
    rounds the rational itself. *)
Definition example_runtime : PyRuntime :=
  {| sha256_hexdigest := fun s => s;
     float_repr := fun q => int_repr (Qnum q) +:+ "/" +:+ int_repr (Zpos (Qden q));
     st_size := fun _ => 1%Z;
     py_round := round_rational |}.

(** A world with an empty cache directory whose clock advances by one second
    at every reading, starting at [100]. *)
Definition ticking_world : World :=
  mkWorld ∅ (fun n => inject_Z (100 + Z.of_nat n)) 0 [].

(** A gateway whose [call] always fails. *)
Definition failing_gateway : LLMGateway :=
  mkGateway "openai" "gpt-4o"
    (fun _ _ => Raise (OtherError "RateLimitError"))
    (fun _ _ => ([], Some (OtherError "RateLimitError")))
    (fun _ => Ok false).

Definition example_bundle : PromptBundle :=
  mkBundle (JArr [JObj [("role", JStr "user"); ("content", JStr "Hello")]]) (3 # 10) 4096.

Definition example_cache : LLMCache.t := LLMCache.__init__ "project" None.
Definition example_response : LLMResponse :=
  mkResponse (JStr "Bonjour") (JStr "openai") (JStr "gpt-4o") JNull (JInt 850)
    (mkUsage (JInt 10) (JInt 5) (JInt 15)).
Definition answering_gateway : LLMGateway :=
  mkGateway "openai" "gpt-4o" (fun _ _ => Ok example_response)
    (fun _ _ => ([example_response], None)) (fun _ => Ok true).

Definition bundle_key : string :=
  _compute_cache_key (H := example_runtime) "openai" "gpt-4o"
    (CachedLLMGateway._prompt_bundle_to_string (H := example_runtime) example_bundle)
    (Some (temperature example_bundle)) [("max_tokens", JInt (max_tokens example_bundle))].

(** The directory after a response for [example_bundle] was stored at time
    [100] with a TTL of one second; the next clock reading is [102]. *)
Definition expired_world : World :=
  snd (LLMCache.set (H := example_runtime) example_cache "openai" "gpt-4o"
         (CachedLLMGateway._prompt_bundle_to_string (H := example_runtime) example_bundle)
         (JObj [("content", JStr "Bonjour")]) (Some (temperature example_bundle)) (Some 1%Z)
         [("max_tokens", JInt (max_tokens example_bundle))] ticking_world).


(** The directory after the empty dict was stored as the response for
    [example_bundle], with the default TTL. *)
Definition falsy_world : World :=
  snd (LLMCache.set (H := example_runtime) example_cache "openai" "gpt-4o"
         (CachedLLMGateway._prompt_bundle_to_string (H := example_runtime) example_bundle)
         (JObj []) (Some (temperature example_bundle)) None
         [("max_tokens", JInt (max_tokens example_bundle))] ticking_world).

(** A computation that may read the clock but leaves the directory, the
    clock oracle and the gateway log alone. *)
Definition read_only {A} (m : M A) : Prop :=
  forall w, files (snd (m w)) = files w /\
            upstream (snd (m w)) = upstream w /\
            clock (snd (m w)) = clock w.

(** The sum of the sizes of the files of a listing. *)
Definition listing_size `{PyRuntime} (l : list (string * file)) : Z :=
  fold_right (fun kf n => st_size (snd kf) + n) 0 l.

(** A file that holds JSON text. *)
Definition is_json (f : file) : Prop := exists doc, f = JsonText doc.

(** An entry as [set] and [get] write them: float timestamps, integer
    count and TTL. *)
Definition well_typed (e : CacheEntry.t) : Prop :=
  exists (c a : Q) (n t : Z),
    CacheEntry.created_at e = JFloat c /\ CacheEntry.accessed_at e = JFloat a /\
    CacheEntry.access_count e = JInt n /\ CacheEntry.ttl_seconds e = JInt t.

Definition entry_file (f : file) : Prop :=
  exists e, f = JsonText (CacheEntry.to_dict e) /\ well_typed e.

(** A directory every file of which is such an entry. *)
Definition managed (w : World) : Prop :=
  forall k f, files w !! k = Some f -> entry_file f.

(** The scan variables as a scan of entry files leaves them. *)
Definition scan_typed (a : LLMCache.scan) : Prop :=
  (exists s, LLMCache.total_accesses a = JInt s) /\
  (LLMCache.oldest_entry a = JNull \/ exists q, LLMCache.oldest_entry a = JFloat q) /\
  (LLMCache.newest_entry a = JNull \/ exists q, LLMCache.newest_entry a = JFloat q).

(** The directory after a dict without [content] was stored as the response
    for [example_bundle]. *)
Definition contentless_world : World :=
  snd (LLMCache.set (H := example_runtime) example_cache "openai" "gpt-4o"
         (CachedLLMGateway._prompt_bundle_to_string (H := example_runtime) example_bundle)
         (JObj [("note", JStr "draft")]) (Some (temperature example_bundle)) None
         [("max_tokens", JInt (max_tokens example_bundle))] ticking_world).

(** * Properties *)

(** ** The order on keys *)

Lemma string_compare_refl (s : string) : String.compare s s = Eq.
Proof.
  induction s as [|c s IH]; simpl; [reflexivity|].
  unfold Ascii.compare. rewrite N.compare_refl. exact IH.
Qed.

Lemma string_compare_lt_trans (a b c : string) :
  String.compare a b = Lt -> String.compare b c = Lt -> String.compare a c = Lt.
Proof.
  revert b c. induction a as [|x a IH]; intros [|y b] [|z c]; simpl; try congruence.
  unfold Ascii.compare.
  destruct (N.compare_spec (N_of_ascii x) (N_of_ascii y)) as [Exy|Lxy|Gxy];
    destruct (N.compare_spec (N_of_ascii y) (N_of_ascii z)) as [Eyz|Lyz|Gyz];
    try congruence; intros Hab Hbc.
  - rewrite Exy, Eyz, N.compare_refl. eauto.
  - rewrite Exy. apply N.compare_lt_iff in Lyz. rewrite Lyz. reflexivity.
  - rewrite <- Eyz. apply N.compare_lt_iff in Lxy. rewrite Lxy. reflexivity.
  - assert (Hxz : (N_of_ascii x < N_of_ascii z)%N) by lia.
    apply N.compare_lt_iff in Hxz. rewrite Hxz. reflexivity.
Qed.

Lemma string_ltb_trans (a b c : string) :
  String.ltb a b = true -> String.ltb b c = true -> String.ltb a c = true.
Proof.
  unfold String.ltb. intros Hab Hbc.
  destruct (String.compare a b) eqn:Eab; try discriminate.
  destruct (String.compare b c) eqn:Ebc; try discriminate.
  rewrite (string_compare_lt_trans a b c Eab Ebc). reflexivity.
Qed.

Lemma string_ltb_asym (a b : string) :
  String.ltb a b = true -> String.ltb b a = true -> False.
Proof.
  unfold String.ltb. rewrite (String.compare_antisym b a).
  destruct (String.compare a b); simpl; intros; discriminate.
Qed.

Lemma string_ltb_total (a b : string) :
  a <> b -> String.ltb a b = false -> String.ltb b a = true.
Proof.
  unfold String.ltb. intros Hne. rewrite (String.compare_antisym b a).
  destruct (String.compare a b) eqn:E; simpl; try congruence.
  apply String.compare_eq_iff in E. congruence.
Qed.

(** ** Sorting the items of a dict *)

Section SortedItems.
Context {V : Type}.
Implicit Types (x y z : string * V) (l : list (string * V)).

#[local] Instance key_lt_trans : Transitive (@key_lt V).
Proof. intros x y z. apply string_ltb_trans. Qed.

#[local] Instance key_lt_antisym : AntiSymm (=) (@key_lt V).
Proof. intros x y Hxy Hyx. destruct (string_ltb_asym _ _ Hxy Hyx). Qed.

Lemma insert_item_perm x l : insert_item x l ≡ₚ x :: l.
Proof.
  induction l as [|y l IH]; simpl; [reflexivity|].
  destruct (String.ltb (fst x) (fst y)); [reflexivity|].
  rewrite IH. apply perm_swap.
Qed.

Lemma sorted_items_perm l : sorted_items l ≡ₚ l.
Proof.
  induction l as [|x l IH]; simpl; [reflexivity|].
  rewrite insert_item_perm, IH. reflexivity.
Qed.

Lemma insert_item_hdrel z x l :
  key_lt z x -> HdRel key_lt z l -> HdRel key_lt z (insert_item x l).
Proof.
  intros Hzx Hl. destruct l as [|y l]; simpl; [constructor; exact Hzx|].
  destruct (String.ltb (fst x) (fst y)); constructor; [exact Hzx|].
  inversion Hl; assumption.
Qed.

Lemma insert_item_sorted x l :
  fst x ∉ map fst l -> Sorted key_lt l -> Sorted key_lt (insert_item x l).
Proof.
  induction l as [|y l IH]; simpl; intros Hnot Hs.
  - repeat constructor.
  - apply not_elem_of_cons in Hnot as [Hne Hnot].
    destruct (String.ltb (fst x) (fst y)) eqn:E.
    + constructor; [exact Hs|]. constructor. exact E.
    + inversion Hs as [|? ? Hs' Hhd]; subst.
      constructor.
      * apply IH; assumption.
      * apply insert_item_hdrel; [|exact Hhd].
        apply string_ltb_total; assumption.
Qed.

Lemma sorted_items_sorted l :
  NoDup (map fst l) -> Sorted key_lt (sorted_items l).
Proof.
  induction l as [|x l IH]; simpl; intros Hnd; [constructor|].
  apply NoDup_cons in Hnd as [Hnot Hnd].
  apply insert_item_sorted; [|auto].
  assert (Hp : map fst (sorted_items l) ≡ₚ map fst l)
    by apply Permutation_map, sorted_items_perm.
  rewrite Hp. exact Hnot.
Qed.

(** Sorting forgets the insertion order of a dict. *)
Lemma sorted_items_order_insensitive l1 l2 :
  NoDup (map fst l1) -> l1 ≡ₚ l2 -> sorted_items l1 = sorted_items l2.
Proof.
  intros Hnd Hp.
  assert (Hk : map fst l1 ≡ₚ map fst l2) by apply Permutation_map, Hp.
  apply (Sorted_unique key_lt).
  - apply sorted_items_sorted, Hnd.
  - apply sorted_items_sorted. rewrite <- Hk. exact Hnd.
  - rewrite !sorted_items_perm. exact Hp.
Qed.

End SortedItems.

(** ** Dicts *)

Lemma elem_of_keys {V} (l : list (string * V)) (k : string) (v : V) :
  (k, v) ∈ l -> k ∈ map fst l.
Proof.
  induction l as [|[k' v'] l IH]; simpl; rewrite ?elem_of_cons.
  - intros Hin. apply elem_of_nil in Hin. destruct Hin.
  - intros [[= -> ->]|Hin]; [left; reflexivity|right; auto].
Qed.

Lemma NoDup_keys_items {V} (l : list (string * V)) :
  NoDup (map fst l) -> NoDup l.
Proof.
  induction l as [|[k v] l IH]; simpl; intros Hnd; [apply NoDup_nil_2|].
  apply NoDup_cons in Hnd as [Hnot Hnd].
  apply NoDup_cons. split; [|auto].
  intros Hin. apply Hnot. eapply elem_of_keys, Hin.
Qed.

Lemma dict_set_keys (k : string) (v : json) (d : dict) :
  forall j, j ∈ map fst (dict_set k v d) <-> j = k \/ j ∈ map fst d.
Proof.
  induction d as [|[k' v'] d IH]; simpl; intros j.
  - rewrite list_elem_of_singleton, elem_of_nil. tauto.
  - destruct (String.eqb_spec k k') as [->|Hne]; simpl.
    + rewrite !elem_of_cons. tauto.
    + rewrite !elem_of_cons, IH. tauto.
Qed.

Lemma dict_set_NoDup (k : string) (v : json) (d : dict) :
  NoDup (map fst d) -> NoDup (map fst (dict_set k v d)).
Proof.
  induction d as [|[k' v'] d IH]; simpl; intros Hnd.
  - apply NoDup_singleton.
  - apply NoDup_cons in Hnd as [Hnot Hnd].
    destruct (String.eqb_spec k k') as [->|Hne]; simpl.
    + apply NoDup_cons; auto.
    + apply NoDup_cons. split; [|auto].
      rewrite dict_set_keys. intros [Heq|Hin]; [congruence|contradiction].
Qed.

Lemma elem_of_dict_set (k : string) (v : json) (d : dict) (j : string) (u : json) :
  NoDup (map fst d) ->
  (j, u) ∈ dict_set k v d <-> (j = k /\ u = v) \/ (j <> k /\ (j, u) ∈ d).
Proof.
  induction d as [|[k' v'] d IH]; simpl; intros Hnd.
  - rewrite list_elem_of_singleton, elem_of_nil.
    split; [intros [= -> ->]; tauto|intros [[-> ->]|[_ []]]; reflexivity].
  - apply NoDup_cons in Hnd as [Hnot Hnd].
    assert (Hkey : forall a b, (a, b) ∈ d -> a ∈ map fst d)
      by (intros a b; apply elem_of_keys).
    destruct (String.eqb_spec k k') as [->|Hne]; simpl.
    + rewrite !elem_of_cons. split.
      * intros [[= -> ->]|Hin]; [tauto|].
        right. split; [|tauto]. intros ->. apply Hnot. eauto.
      * intros [[-> ->]|[Hjk [[= -> ->]|Hin]]]; [tauto|congruence|tauto].
    + rewrite !elem_of_cons, (IH Hnd). split.
      * intros [[= -> ->]|[[-> ->]|[Hjk Hin]]]; [right; split; [congruence|tauto]|tauto|tauto].
      * intros [[-> ->]|[Hjk [[= -> ->]|Hin]]]; tauto.
Qed.

Lemma dict_update_NoDup (kw d : dict) :
  NoDup (map fst d) -> NoDup (map fst (dict_update d kw)).
Proof.
  revert d. induction kw as [|[k v] kw IH]; simpl; intros d Hnd; [exact Hnd|].
  apply IH, dict_set_NoDup, Hnd.
Qed.

Lemma elem_of_dict_update (kw d : dict) (j : string) (u : json) :
  NoDup (map fst d) -> NoDup (map fst kw) ->
  (j, u) ∈ dict_update d kw <->
  ((j, u) ∈ kw) \/ ((j ∉ map fst kw) /\ (j, u) ∈ d).
Proof.
  revert d. induction kw as [|[k v] kw IH]; simpl; intros d Hd Hkw.
  - rewrite elem_of_nil. split; [intros ?; right; split; [apply not_elem_of_nil|assumption]|tauto].
  - apply NoDup_cons in Hkw as [Hnot Hkw].
    unfold dict_update in IH.
    rewrite (IH (dict_set k v d) (dict_set_NoDup k v d Hd) Hkw).
    rewrite (elem_of_dict_set k v d j u Hd), elem_of_cons, not_elem_of_cons.
    assert (Hkey : (j, u) ∈ kw -> j ∈ map fst kw) by apply elem_of_keys.
    split.
    + intros [Hin|[Hj [[-> ->]|[Hjk Hin]]]]; [tauto|tauto|tauto].
    + intros [[[= -> ->]|Hin]|[[Hjk Hj] Hin]]; [tauto|tauto|tauto].
Qed.

(** Merging keyword arguments into a dict yields the same dict, up to the
    position of the items, whatever the order the keywords came in. *)
Lemma dict_update_perm (d kw1 kw2 : dict) :
  NoDup (map fst d) -> NoDup (map fst kw1) -> kw1 ≡ₚ kw2 ->
  dict_update d kw1 ≡ₚ dict_update d kw2.
Proof.
  intros Hd Hk1 Hp.
  assert (Hk2 : NoDup (map fst kw2)).
  { assert (Hk : map fst kw1 ≡ₚ map fst kw2) by apply Permutation_map, Hp.
    rewrite <- Hk. exact Hk1. }
  apply NoDup_Permutation.
  - apply NoDup_keys_items, dict_update_NoDup, Hd.
  - apply NoDup_keys_items, dict_update_NoDup, Hd.
  - intros [j u]. rewrite !elem_of_dict_update by assumption.
    rewrite Hp. reflexivity.
Qed.

Section KeyProperties.
Context `{PyRuntime}.

Lemma fixed_keys_NoDup :
  NoDup ["provider"; "model"; "prompt"; "temperature"].
Proof. apply (bool_decide_unpack _). vm_compute. exact I. Qed.

Lemma json_dumps_obj_perm (d1 d2 : dict) :
  NoDup (map fst d1) -> d1 ≡ₚ d2 -> json_dumps (JObj d1) = json_dumps (JObj d2).
Proof.
  intros Hnd Hp. simpl. do 4 f_equal.
  apply sorted_items_order_insensitive.
  - rewrite map_map. simpl. exact Hnd.
  - apply Permutation_map, Hp.
Qed.

(** C1.  Key derivation does not depend on the insertion order of the extra
    parameters: two keyword dicts holding the same items give the same key;
    in particular (the dicts being equal) identical parameter values give
    equal keys. *)
Theorem compute_cache_key_order_insensitive
    (provider model prompt : string) (temperature : option Q) (kwargs1 kwargs2 : dict) :
  NoDup (dict_keys kwargs1) ->
  kwargs1 ≡ₚ kwargs2 ->
  _compute_cache_key provider model prompt temperature kwargs1 =
  _compute_cache_key provider model prompt temperature kwargs2.
Proof.
  intros Hnd Hp. unfold _compute_cache_key. f_equal.
  apply json_dumps_obj_perm.
  - apply dict_update_NoDup, fixed_keys_NoDup.
  - apply dict_update_perm; [apply fixed_keys_NoDup|exact Hnd|exact Hp].
Qed.

End KeyProperties.

Lemma from_dict_to_dict (e : CacheEntry.t) :
  CacheEntry.from_dict (CacheEntry.to_dict e) = Ok e.
Proof. destruct e. reflexivity. Qed.

(** [is_expired], case by case. *)
Lemma is_expired_null (e : CacheEntry.t) (w : World) :
  CacheEntry.ttl_seconds e = JNull -> CacheEntry.is_expired e w = (Ok false, w).
Proof. intros Httl. unfold CacheEntry.is_expired. rewrite Httl. reflexivity. Qed.

Lemma float_of_int_raises (z : Z) (x : exn) :
  float_of_int z = Raise x -> x = OverflowError.
Proof.
  unfold float_of_int. destruct (Z.abs z <? 2 ^ 53)%Z; [discriminate|].
  destruct (_ <? 2 ^ 1024)%Z; [discriminate|]. intros [= <-]. reflexivity.
Qed.

Lemma as_float_raises (j : json) (x : exn) :
  as_float j = Raise x -> x = TypeError \/ x = OverflowError.
Proof.
  destruct j; cbn [as_float]; try discriminate; try (intros [= <-]; left; reflexivity).
  intros Hz. right. exact (float_of_int_raises _ _ Hz).
Qed.

(** The conversion on the edges of the doubles: integers up to [2^53] are
    kept, [2^53 + 1] and [2^53 + 3] go to their even neighbours, the largest
    double is [2^1024 - 2^971], and the first integer that overflows is
    [2^1024 - 2^970]. *)
Example float_of_int_exact : float_of_int (- (2 ^ 53 - 1)) = Ok (inject_Z (- (2 ^ 53 - 1))).
Proof. vm_compute. reflexivity. Qed.

Example float_of_int_tie_down : float_of_int (2 ^ 53 + 1) = Ok (inject_Z (2 ^ 53)).
Proof. vm_compute. reflexivity. Qed.

Example float_of_int_tie_up : float_of_int (2 ^ 53 + 3) = Ok (inject_Z (2 ^ 53 + 4)).
Proof. vm_compute. reflexivity. Qed.

Example float_of_int_largest :
  float_of_int (2 ^ 1024 - 2 ^ 970 - 1) = Ok (inject_Z (2 ^ 1024 - 2 ^ 971)).
Proof. vm_compute. reflexivity. Qed.

Example float_of_int_first_overflow :
  float_of_int (2 ^ 1024 - 2 ^ 970) = Raise OverflowError.
Proof. vm_compute. reflexivity. Qed.


Lemma is_expired_numbers (e : CacheEntry.t) (w : World) (c t : Q) :
  as_float (CacheEntry.created_at e) = Ok c ->
  as_number (CacheEntry.ttl_seconds e) = Some t ->
  CacheEntry.is_expired e w =
    (Ok (negb (Qle_bool (clock w (ticks w) - c) t)), tick w).
Proof.
  intros Hc Ht. unfold CacheEntry.is_expired, bind, time_time, lift, float_sub, float_gt.
  destruct (CacheEntry.ttl_seconds e); try discriminate; simpl; rewrite Hc; simpl in *;
    try rewrite Ht; injection Ht as <-; reflexivity.
Qed.

(** With a TTL, a stamp the subtraction rejects makes [is_expired] raise
    after the clock was read. *)
Lemma is_expired_stamp_error (e : CacheEntry.t) (w : World) (x : exn) :
  CacheEntry.ttl_seconds e <> JNull ->
  as_float (CacheEntry.created_at e) = Raise x ->
  CacheEntry.is_expired e w = (Raise x, tick w).
Proof.
  intros Httl Hc. unfold CacheEntry.is_expired, bind, time_time, lift, float_sub.
  destruct (CacheEntry.ttl_seconds e); try congruence; simpl; rewrite Hc; reflexivity.
Qed.

Lemma is_expired_outcome (e : CacheEntry.t) (w : World) :
  CacheEntry.is_expired e w = (Ok false, w) /\ CacheEntry.ttl_seconds e = JNull \/
  (exists x, CacheEntry.is_expired e w = (Raise x, tick w) /\
     (x = TypeError \/ x = OverflowError) /\
     CacheEntry.ttl_seconds e <> JNull /\
     (as_float (CacheEntry.created_at e) = Raise x \/
      as_number (CacheEntry.ttl_seconds e) = None)) \/
  exists c t, as_float (CacheEntry.created_at e) = Ok c /\
              as_number (CacheEntry.ttl_seconds e) = Some t /\
              CacheEntry.is_expired e w =
                (Ok (negb (Qle_bool (clock w (ticks w) - c) t)), tick w).
Proof.
  destruct (CacheEntry.ttl_seconds e) eqn:Ettl.
  1: { left. split; [apply is_expired_null; exact Ettl|reflexivity]. }
  all: right.
  all: destruct (as_float (CacheEntry.created_at e)) as [c|x] eqn:Ec.
  all: try (left; exists x; split;
            [apply is_expired_stamp_error; [rewrite Ettl; discriminate|exact Ec]|];
            split; [exact (as_float_raises _ _ Ec)|];
            split; [discriminate|left; reflexivity]).
  all: try (right; eexists _, _; split; [reflexivity|]; split; [reflexivity|];
            apply is_expired_numbers; [exact Ec|rewrite Ettl; reflexivity]).
  all: left; exists TypeError; split;
         [unfold CacheEntry.is_expired, bind, time_time, lift, float_sub, float_gt;
          rewrite Ettl; simpl; rewrite Ec; reflexivity|];
       split; [left; reflexivity|]; split; [discriminate|right; reflexivity].
Qed.

Lemma from_dict_raises (data : json) (x : exn) :
  CacheEntry.from_dict data = Raise x -> x = TypeError.
Proof.
  unfold CacheEntry.from_dict. destruct data; try (intros [= <-]; reflexivity).
  destruct (forallb _ _); [|intros [= <-]; reflexivity].
  repeat (match goal with
          | |- context [dict_get ?k ?d] => destruct (dict_get k d)
          end; try (intros [= <-]; reflexivity)).
Qed.

Lemma update_access_ok (e : CacheEntry.t) (w : World) (count : json) :
  num_add (CacheEntry.access_count e) (JInt 1) = Ok count ->
  CacheEntry.update_access e w = (Ok (accessed e (clock w (ticks w)) count), tick w).
Proof.
  intros Hc. unfold CacheEntry.update_access, bind, time_time, lift. simpl.
  rewrite Hc. reflexivity.
Qed.

Lemma update_access_raise (e : CacheEntry.t) (w : World) (x : exn) :
  num_add (CacheEntry.access_count e) (JInt 1) = Raise x ->
  CacheEntry.update_access e w = (Raise TypeError, tick w).
Proof.
  intros Hc. unfold CacheEntry.update_access, bind, time_time, lift. simpl.
  rewrite Hc. f_equal. f_equal.
  unfold num_add in Hc.
  destruct (CacheEntry.access_count e); simpl in Hc; congruence.
Qed.

Section GetSet.
Context `{PyRuntime}.
Variables (self : LLMCache.t) (provider model prompt : string)
          (temperature : option Q) (kwargs : dict).

Let key := _compute_cache_key provider model prompt temperature kwargs.
Let get := LLMCache.get self provider model prompt temperature kwargs.

Lemma get_absent (w : World) :
  files w !! key = None -> get w = (Ok JNull, w).
Proof.
  intros Hf. unfold get, LLMCache.get, bind, path_exists. fold key.
  rewrite Hf. rewrite bool_decide_eq_false_2; [reflexivity|].
  intros [? ?]; discriminate.
Qed.

Lemma get_present (w : World) (f : file) :
  files w !! key = Some f ->
  get w =
    try_except
      (let* data := lift (json_load f) in
       let* entry := lift (CacheEntry.from_dict data) in
       let* expired := CacheEntry.is_expired entry in
       if expired then (unlink key ;; ret JNull)
       else
         let* entry' := CacheEntry.update_access entry in
         (write_json key (CacheEntry.to_dict entry') ;;
          ret (CacheEntry.response entry')))
      LLMCache.invalid_cache_file
      (unlink key ;; ret JNull) w.
Proof.
  intros Hf. unfold get, LLMCache.get, bind at 1, path_exists. fold key.
  rewrite Hf. rewrite bool_decide_eq_true_2 by eauto. simpl.
  unfold try_except, bind at 1, read_json, lift. rewrite Hf.
  unfold bind at 1. reflexivity.
Qed.

Lemma get_not_json (w : World) (raw : string) :
  files w !! key = Some (NotJson raw) ->
  get w = (Ok JNull, set_files (delete key (files w)) w).
Proof. intros Hf. rewrite (get_present w _ Hf). reflexivity. Qed.

Lemma get_shape_mismatch (w : World) (data : json) (x : exn) :
  files w !! key = Some (JsonText data) ->
  CacheEntry.from_dict data = Raise x ->
  get w = (Raise TypeError, w).
Proof.
  intros Hf Hd. rewrite (get_present w _ Hf).
  unfold try_except, bind, lift. simpl. rewrite Hd.
  rewrite (from_dict_raises _ _ Hd). reflexivity.
Qed.

Lemma get_expired (w w1 : World) (data : json) (e : CacheEntry.t) :
  files w !! key = Some (JsonText data) ->
  CacheEntry.from_dict data = Ok e ->
  CacheEntry.is_expired e w = (Ok true, w1) ->
  get w = (Ok JNull, set_files (delete key (files w1)) w1).
Proof.
  intros Hf Hd He. rewrite (get_present w _ Hf).
  unfold try_except, bind, lift. simpl. rewrite Hd, He. reflexivity.
Qed.

Lemma get_expiry_error (w w1 : World) (data : json) (e : CacheEntry.t) (x : exn) :
  files w !! key = Some (JsonText data) ->
  CacheEntry.from_dict data = Ok e ->
  CacheEntry.is_expired e w = (Raise x, w1) ->
  x = TypeError \/ x = OverflowError ->
  get w = (Raise x, w1).
Proof.
  intros Hf Hd He Hx. rewrite (get_present w _ Hf).
  unfold try_except, bind, lift. simpl. rewrite Hd, He.
  destruct Hx as [-> | ->]; reflexivity.
Qed.

Lemma get_hit (w w1 : World) (data : json) (e : CacheEntry.t) (count : json) :
  files w !! key = Some (JsonText data) ->
  CacheEntry.from_dict data = Ok e ->
  CacheEntry.is_expired e w = (Ok false, w1) ->
  num_add (CacheEntry.access_count e) (JInt 1) = Ok count ->
  get w =
    (Ok (CacheEntry.response e),
     set_files (<[key := JsonText (CacheEntry.to_dict (accessed e (clock w1 (ticks w1)) count))]>
                  (files w1)) (tick w1)).
Proof.
  intros Hf Hd He Hc. rewrite (get_present w _ Hf).
  unfold try_except, bind, lift. simpl. rewrite Hd, He.
  rewrite (update_access_ok e w1 count Hc). reflexivity.
Qed.

Lemma get_count_error (w w1 : World) (data : json) (e : CacheEntry.t) (x : exn) :
  files w !! key = Some (JsonText data) ->
  CacheEntry.from_dict data = Ok e ->
  CacheEntry.is_expired e w = (Ok false, w1) ->
  num_add (CacheEntry.access_count e) (JInt 1) = Raise x ->
  get w = (Raise TypeError, tick w1).
Proof.
  intros Hf Hd He Hc. rewrite (get_present w _ Hf).
  unfold try_except, bind, lift. simpl. rewrite Hd, He.
  rewrite (update_access_raise e w1 x Hc). reflexivity.
Qed.

End GetSet.

Lemma Qgt_bool_true (x t : Q) : negb (Qle_bool x t) = true <-> (t < x)%Q.
Proof.
  rewrite negb_true_iff. split.
  - intros Hb. apply Qnot_le_lt. intros Hle. apply Qle_bool_iff in Hle. congruence.
  - intros Hlt. destruct (Qle_bool x t) eqn:E; [|reflexivity].
    apply Qle_bool_iff in E. destruct (Qlt_not_le _ _ Hlt E).
Qed.

Lemma Qgt_bool_false (x t : Q) : negb (Qle_bool x t) = false <-> (x <= t)%Q.
Proof. rewrite negb_false_iff. apply Qle_bool_iff. Qed.

Section CacheProperties.
Context `{PyRuntime}.

Lemma set_result (self : LLMCache.t) (provider model prompt : string) (response : json)
    (temperature : option Q) (ttl : option Z) (kwargs : dict) (w : World) :
  let key := _compute_cache_key provider model prompt temperature kwargs in
  LLMCache.set self provider model prompt response temperature ttl kwargs w =
    (Ok key,
     set_files
       (<[key := JsonText (CacheEntry.to_dict
            (CacheEntry.mk response (JStr key) (JStr provider) (JStr model)
               (JStr (_compute_prompt_hash prompt))
               (JFloat (clock w (ticks w))) (JFloat (clock w (S (ticks w))))
               (JInt 1) (JInt (int_or ttl (LLMCache.ttl_seconds self)))
               (JObj (dict_update [("temperature", opt_float temperature)] kwargs))))]>
          (files w))
       (tick (tick w))).
Proof. reflexivity. Qed.

(** C2.  Round trip: [set] followed by [get] with the same parameters
    returns the stored response, provided the entry has not expired when
    [get] checks it, that is, the time elapsed since [set] stamped the entry
    does not exceed the entry's TTL. *)
Theorem set_then_get_roundtrip (self : LLMCache.t) (provider model prompt : string)
    (response : json) (temperature : option Q) (ttl : option Z) (kwargs : dict)
    (w : World) :
  (clock w (S (S (ticks w))) - clock w (ticks w)
     <= inject_Z (int_or ttl (LLMCache.ttl_seconds self)))%Q ->
  fst (LLMCache.get self provider model prompt temperature kwargs
         (snd (LLMCache.set self provider model prompt response temperature ttl kwargs w)))
  = Ok response.
Proof.
  intros Hlive. rewrite set_result. cbn [snd].
  erewrite get_hit; cycle 1.
  - cbn [files set_files]. apply lookup_insert_eq.
  - apply from_dict_to_dict.
  - erewrite is_expired_numbers by reflexivity.
    cbn [clock ticks set_files tick].
    apply Qgt_bool_false in Hlive. rewrite Hlive. reflexivity.
  - reflexivity.
  - reflexivity.
Qed.

(** On an entry whose stamp is a float and whose TTL is a number, a read is
    a miss that removes the file exactly when
    [now - created_at > ttl_seconds], [now] being the clock reading of the
    check. *)
Lemma get_expiry_float_stamp (self : LLMCache.t) (provider model prompt : string)
    (temperature : option Q) (kwargs : dict) (w : World) (data : json)
    (e : CacheEntry.t) (c t : Q) :
  let key := _compute_cache_key provider model prompt temperature kwargs in
  let r := LLMCache.get self provider model prompt temperature kwargs w in
  files w !! key = Some (JsonText data) ->
  CacheEntry.from_dict data = Ok e ->
  CacheEntry.created_at e = JFloat c ->
  as_number (CacheEntry.ttl_seconds e) = Some t ->
  (fst r = Ok JNull /\ files (snd r) !! key = None) <-> (t < clock w (ticks w) - c)%Q.
Proof.
  intros key r Hf Hd Hc Ht. subst r.
  assert (He := is_expired_numbers e w c t).
  rewrite Hc in He. specialize (He eq_refl Ht).
  destruct (negb (Qle_bool (clock w (ticks w) - c) t)) eqn:Egt.
  - rewrite (get_expired self _ _ _ _ _ w _ data e Hf Hd He).
    cbn [fst snd files set_files tick]. fold key. rewrite lookup_delete_eq.
    apply Qgt_bool_true in Egt. tauto.
  - apply Qgt_bool_false in Egt. split.
    + intros [Hr Hgone]. exfalso.
      destruct (num_add (CacheEntry.access_count e) (JInt 1)) as [count|x] eqn:Ecount.
      * rewrite (get_hit self _ _ _ _ _ w _ data e count Hf Hd He Ecount) in Hgone.
        cbn [snd files set_files] in Hgone. fold key in Hgone.
        rewrite lookup_insert_eq in Hgone. discriminate.
      * rewrite (get_count_error self _ _ _ _ _ w _ data e x Hf Hd He Ecount) in Hr.
        discriminate.
    + intros Hlt. destruct (Qlt_not_le _ _ Hlt Egt).
Qed.

(** [accessed_at] does not enter the expiry decision. *)
Lemma is_expired_ignores_accessed_at (e : CacheEntry.t) (a : json) (w : World) :
  CacheEntry.is_expired
    (CacheEntry.mk (CacheEntry.response e) (CacheEntry.cache_key e)
       (CacheEntry.provider e) (CacheEntry.model e) (CacheEntry.prompt_hash e)
       (CacheEntry.created_at e) a (CacheEntry.access_count e)
       (CacheEntry.ttl_seconds e) (CacheEntry.request_metadata e)) w
  = CacheEntry.is_expired e w.
Proof. reflexivity. Qed.


End CacheProperties.

Section CacheProperties2.
Context `{PyRuntime}.

Lemma stored_entry_after_set (self : LLMCache.t) (provider model prompt : string)
    (response : json) (temperature : option Q) (ttl : option Z) (kwargs : dict)
    (w : World) :
  let key := _compute_cache_key provider model prompt temperature kwargs in
  stored_entry
    (snd (LLMCache.set self provider model prompt response temperature ttl kwargs w)) key =
  Some (CacheEntry.mk response (JStr key) (JStr provider) (JStr model)
          (JStr (_compute_prompt_hash prompt))
          (JFloat (clock w (ticks w))) (JFloat (clock w (S (ticks w))))
          (JInt 1) (JInt (int_or ttl (LLMCache.ttl_seconds self)))
          (JObj (dict_update [("temperature", opt_float temperature)] kwargs))).
Proof.
  intros key. rewrite set_result. cbn [snd]. unfold stored_entry.
  cbn [files set_files]. fold key. rewrite lookup_insert_eq.
  rewrite from_dict_to_dict. reflexivity.
Qed.

(** A file that is not JSON is a miss and is removed. *)
Lemma get_malformed_json_is_miss (self : LLMCache.t) (provider model prompt : string)
    (temperature : option Q) (kwargs : dict) (w : World) (raw : string) :
  let key := _compute_cache_key provider model prompt temperature kwargs in
  files w !! key = Some (NotJson raw) ->
  fst (LLMCache.get self provider model prompt temperature kwargs w) = Ok JNull /\
  files (snd (LLMCache.get self provider model prompt temperature kwargs w)) !! key = None.
Proof.
  intros key Hf. rewrite (get_not_json self _ _ _ _ _ w raw Hf).
  cbn [fst snd files set_files]. fold key. rewrite lookup_delete_eq. tauto.
Qed.

(** C4.  A stored file holding the JSON object [{}], which lacks every
    field of [CacheEntry], is not treated as a miss: [get] raises
    [TypeError], which its handler does not catch, and the file stays. *)
Theorem get_shape_mismatch_raises (self : LLMCache.t) (provider model prompt : string)
    (temperature : option Q) (kwargs : dict) (fs : gmap string file)
    (clk : nat -> Q) (t : nat) (up : list upstream_event) :
  let key := _compute_cache_key provider model prompt temperature kwargs in
  let w := mkWorld (<[key := JsonText (JObj [])]> fs) clk t up in
  LLMCache.get self provider model prompt temperature kwargs w = (Raise TypeError, w) /\
  files w !! key = Some (JsonText (JObj [])).
Proof.
  intros key w.
  assert (Hf : files w !! key = Some (JsonText (JObj []))) by apply lookup_insert_eq.
  split; [|exact Hf].
  apply (get_shape_mismatch self _ _ _ _ _ w (JObj []) TypeError Hf). reflexivity.
Qed.

(** A non-zero override is the TTL of the stored entry. *)
Lemma set_ttl_override_nonzero (self : LLMCache.t) (provider model prompt : string)
    (response : json) (temperature : option Q) (z : Z) (kwargs : dict) (w : World) :
  z <> 0%Z ->
  CacheEntry.ttl_seconds <$>
    stored_entry
      (snd (LLMCache.set self provider model prompt response temperature (Some z) kwargs w))
      (_compute_cache_key provider model prompt temperature kwargs)
  = Some (JInt z).
Proof.
  intros Hz. rewrite stored_entry_after_set. cbn. f_equal. f_equal.
  destruct (Z.eqb_spec z 0); [contradiction|reflexivity].
Qed.

(** Without an override the TTL is the default of the instance, which is
    30 days when the instance was built without one. *)
Lemma set_ttl_default (self : LLMCache.t) (provider model prompt : string)
    (response : json) (temperature : option Q) (kwargs : dict) (w : World) :
  CacheEntry.ttl_seconds <$>
    stored_entry
      (snd (LLMCache.set self provider model prompt response temperature None kwargs w))
      (_compute_cache_key provider model prompt temperature kwargs)
  = Some (JInt (LLMCache.ttl_seconds self)).
Proof. rewrite stored_entry_after_set. reflexivity. Qed.

Lemma init_default_ttl (project_id : string) :
  LLMCache.ttl_seconds (LLMCache.__init__ project_id None) = 2592000%Z.
Proof. reflexivity. Qed.

(** C5.  An override of [0] is not stored: [ttl_seconds or self.ttl_seconds]
    takes [0] for absent, so the entry gets the default of the instance
    (30 days for an instance built without a TTL). *)
Theorem set_zero_ttl_override_ignored (self : LLMCache.t) (provider model prompt : string)
    (response : json) (temperature : option Q) (kwargs : dict) (w : World)
    (project_id : string) :
  CacheEntry.ttl_seconds <$>
    stored_entry
      (snd (LLMCache.set self provider model prompt response temperature (Some 0%Z) kwargs w))
      (_compute_cache_key provider model prompt temperature kwargs)
  = Some (JInt (LLMCache.ttl_seconds self)) /\
  CacheEntry.ttl_seconds <$>
    stored_entry
      (snd (LLMCache.set (LLMCache.__init__ project_id None) provider model prompt response
              temperature (Some 0%Z) kwargs w))
      (_compute_cache_key provider model prompt temperature kwargs)
  = Some (JInt 2592000) /\
  JInt 2592000 <> JInt 0.
Proof.
  split; [|split].
  - rewrite stored_entry_after_set. reflexivity.
  - rewrite stored_entry_after_set. reflexivity.
  - discriminate.
Qed.

End CacheProperties2.

Lemma stored_entry_inv (w : World) (key : string) (e : CacheEntry.t) :
  stored_entry w key = Some e ->
  exists data, files w !! key = Some (JsonText data) /\ CacheEntry.from_dict data = Ok e.
Proof.
  unfold stored_entry. destruct (files w !! key) as [[raw|data]|]; try discriminate.
  destruct (CacheEntry.from_dict data) as [e'|x] eqn:Hd; try discriminate.
  intros [= <-]. exists data. tauto.
Qed.

Lemma stored_entry_insert (w : World) (key : string) (e : CacheEntry.t) (w' : World) :
  stored_entry (set_files (<[key := JsonText (CacheEntry.to_dict e)]> (files w)) w') key
  = Some e.
Proof.
  unfold stored_entry. cbn [files set_files]. rewrite lookup_insert_eq.
  rewrite from_dict_to_dict. reflexivity.
Qed.

Section Bookkeeping.
Context `{PyRuntime}.
Variables (self : LLMCache.t) (provider model prompt : string)
          (temperature : option Q) (kwargs : dict).

Let key := _compute_cache_key provider model prompt temperature kwargs.
Let get := LLMCache.get self provider model prompt temperature kwargs.

(** A hit on an entry with an integer count: the response comes back, the
    count goes up by one, [accessed_at] is the last reading of the call. *)
Lemma get_hit_bookkeeping (w : World) (e : CacheEntry.t) (n : Z) :
  stored_entry w key = Some e ->
  CacheEntry.access_count e = JInt n ->
  fst (CacheEntry.is_expired e w) = Ok false ->
  fst (get w) = Ok (CacheEntry.response e) /\
  stored_entry (snd (get w)) key =
    Some (accessed e (clock w (Nat.pred (ticks (snd (get w))))) (JInt (n + 1))).
Proof.
  intros Hs Hn He.
  destruct (stored_entry_inv w key e Hs) as (data & Hf & Hd).
  assert (Hc : num_add (CacheEntry.access_count e) (JInt 1) = Ok (JInt (n + 1)))
    by (rewrite Hn; reflexivity).
  destruct (is_expired_outcome e w) as [[Hx _]|[(x & Hx & Hxc & _)|(c & t & _ & _ & Hx)]];
    rewrite Hx in He; cbn [fst] in He; try discriminate.
  - subst get. rewrite (get_hit self _ _ _ _ _ w w data e _ Hf Hd Hx Hc).
    cbn [fst snd]. split; [reflexivity|]. fold key. rewrite stored_entry_insert.
    reflexivity.
  - injection He as He. rewrite He in Hx.
    subst get. rewrite (get_hit self _ _ _ _ _ w _ data e _ Hf Hd Hx Hc).
    cbn [fst snd]. split; [reflexivity|]. fold key. rewrite stored_entry_insert.
    reflexivity.
Qed.

(** A read of a live entry as [set] and [get] write them. *)
Lemma get_live_entry (w : World) (e : CacheEntry.t) (c : Q) (z n : Z) :
  stored_entry w key = Some e ->
  CacheEntry.created_at e = JFloat c ->
  CacheEntry.ttl_seconds e = JInt z ->
  CacheEntry.access_count e = JInt n ->
  (clock w (ticks w) - c <= inject_Z z)%Q ->
  get w =
    (Ok (CacheEntry.response e),
     set_files
       (<[key := JsonText (CacheEntry.to_dict
                   (accessed e (clock w (S (ticks w))) (JInt (n + 1))))]> (files w))
       (tick (tick w))).
Proof.
  intros Hs Hc Ht Hn Hlive.
  destruct (stored_entry_inv w key e Hs) as (data & Hf & Hd).
  assert (Hx : CacheEntry.is_expired e w = (Ok false, tick w)).
  { rewrite (is_expired_numbers e w c (inject_Z z)); [|rewrite Hc; reflexivity|rewrite Ht; reflexivity].
    apply Qgt_bool_false in Hlive. rewrite Hlive. reflexivity. }
  assert (Hcount : num_add (CacheEntry.access_count e) (JInt 1) = Ok (JInt (n + 1)))
    by (rewrite Hn; reflexivity).
  subst get. rewrite (get_hit self _ _ _ _ _ w _ data e _ Hf Hd Hx Hcount). reflexivity.
Qed.

(** C6 (as amended).  [set] creates an entry with [access_count = 1] whose
    [created_at] and [accessed_at] are the two successive clock readings the
    call makes; every hit returns the response, adds exactly one to
    [access_count], sets [accessed_at] to the last clock reading of the hit
    and persists the entry; after one [set] and two hits the persisted count
    is [3]. *)
Theorem access_bookkeeping (response : json) (ttl : option Z) (w wh : World)
    (e : CacheEntry.t) (n : Z) :
  let w1 := snd (LLMCache.set self provider model prompt response temperature ttl kwargs w) in
  let w2 := snd (get w1) in
  let w3 := snd (get w2) in
  let ttl_entry := inject_Z (int_or ttl (LLMCache.ttl_seconds self)) in
  (clock w (2 + ticks w) - clock w (ticks w) <= ttl_entry)%Q ->
  (clock w (4 + ticks w) - clock w (ticks w) <= ttl_entry)%Q ->
  stored_entry wh key = Some e ->
  CacheEntry.access_count e = JInt n ->
  fst (CacheEntry.is_expired e wh) = Ok false ->
  (exists e1, stored_entry w1 key = Some e1 /\
              CacheEntry.access_count e1 = JInt 1 /\
              CacheEntry.created_at e1 = JFloat (clock w (ticks w)) /\
              CacheEntry.accessed_at e1 = JFloat (clock w (S (ticks w)))) /\
  (fst (get wh) = Ok (CacheEntry.response e) /\
   stored_entry (snd (get wh)) key =
     Some (accessed e (clock wh (Nat.pred (ticks (snd (get wh))))) (JInt (n + 1)))) /\
  CacheEntry.access_count <$> stored_entry w3 key = Some (JInt 3).
Proof.
  intros w1 w2 w3 ttl_entry Hlive1 Hlive2 Hs Hn Hx.
  pose proof (stored_entry_after_set self provider model prompt response temperature ttl
                kwargs w) as Hset.
  cbn zeta in Hset. fold key in Hset. fold w1 in Hset.
  split; [|split].
  - eexists. split; [exact Hset|]. cbn. tauto.
  - apply get_hit_bookkeeping; assumption.
  - assert (Hw1 : ticks w1 = S (S (ticks w)) /\ clock w1 = clock w).
    { subst w1. rewrite set_result. cbn. tauto. }
    destruct Hw1 as [Ht1 Hc1].
    set (e1 := CacheEntry.mk _ _ _ _ _ _ _ _ _ _) in Hset.
    set (e2 := accessed e1 (clock w1 (S (ticks w1))) (JInt (1 + 1))).
    assert (Hg1 : get w1 =
              (Ok (CacheEntry.response e1),
               set_files (<[key := JsonText (CacheEntry.to_dict e2)]> (files w1))
                 (tick (tick w1)))).
    { apply (get_live_entry w1 e1 (clock w (ticks w))
               (int_or ttl (LLMCache.ttl_seconds self)) 1 Hset eq_refl eq_refl eq_refl).
      rewrite Ht1, Hc1. exact Hlive1. }
    assert (Hs2 : stored_entry w2 key = Some e2).
    { subst w2. rewrite Hg1. apply stored_entry_insert. }
    assert (Hw2 : ticks w2 = S (S (ticks w1)) /\ clock w2 = clock w1).
    { subst w2. rewrite Hg1. cbn. tauto. }
    destruct Hw2 as [Ht2 Hc2].
    assert (Hg2 : get w2 =
              (Ok (CacheEntry.response e2),
               set_files
                 (<[key := JsonText (CacheEntry.to_dict
                      (accessed e2 (clock w2 (S (ticks w2))) (JInt (2 + 1))))]> (files w2))
                 (tick (tick w2)))).
    { apply (get_live_entry w2 e2 (clock w (ticks w))
               (int_or ttl (LLMCache.ttl_seconds self)) 2 Hs2 eq_refl eq_refl eq_refl).
      rewrite Ht2, Hc2, Ht1, Hc1. exact Hlive2. }
    subst w3. rewrite Hg2. cbn [snd]. rewrite stored_entry_insert. reflexivity.
Qed.

End Bookkeeping.

(** C6, counterexample.  With a clock that advances between two readings,
    the entry [set] stores has [created_at = 100] and [accessed_at = 101]. *)
Lemma set_timestamps_differ :
  let cache := LLMCache.__init__ "project" None in
  let w := snd (LLMCache.set (H := example_runtime) cache "openai" "gpt-4o" "Hello"
                  (JObj [("content", JStr "Hi")]) (Some (7 # 10)) None [] ticking_world) in
  let key := _compute_cache_key (H := example_runtime) "openai" "gpt-4o" "Hello" (Some (7 # 10)) [] in
  exists e, stored_entry w key = Some e /\
            CacheEntry.created_at e = JFloat 100 /\
            CacheEntry.accessed_at e = JFloat 101 /\
            CacheEntry.created_at e <> CacheEntry.accessed_at e.
Proof.
  intros cache w key. eexists. split.
  - subst w key. apply (stored_entry_after_set (H := example_runtime)).
  - cbn. split; [reflexivity|]. split; [reflexivity|]. discriminate.
Qed.

Section GatewayProperties.
Context `{PyRuntime}.

(** [get] consults neither the gateway nor changes the clock oracle. *)
Lemma get_frame (self : LLMCache.t) (provider model prompt : string)
    (temperature : option Q) (kwargs : dict) (w : World) :
  upstream (snd (LLMCache.get self provider model prompt temperature kwargs w)) = upstream w /\
  clock (snd (LLMCache.get self provider model prompt temperature kwargs w)) = clock w.
Proof.
  set (key := _compute_cache_key provider model prompt temperature kwargs).
  destruct (files w !! key) as [[raw|data]|] eqn:Hf.
  - rewrite (get_not_json self _ _ _ _ _ w raw Hf). cbn. tauto.
  - destruct (CacheEntry.from_dict data) as [e|x] eqn:Hd.
    + destruct (num_add (CacheEntry.access_count e) (JInt 1)) as [count|y] eqn:Hc;
      destruct (is_expired_outcome e w) as [[Hx _]|[(x & Hx & Hxc & _)|(c & t & _ & _ & Hx)]].
      * rewrite (get_hit self _ _ _ _ _ w _ data e count Hf Hd Hx Hc). cbn. tauto.
      * rewrite (get_expiry_error self _ _ _ _ _ w _ data e x Hf Hd Hx Hxc). cbn. tauto.
      * destruct (negb (Qle_bool (clock w (ticks w) - c) t)).
        -- rewrite (get_expired self _ _ _ _ _ w _ data e Hf Hd Hx). cbn. tauto.
        -- rewrite (get_hit self _ _ _ _ _ w _ data e count Hf Hd Hx Hc). cbn. tauto.
      * rewrite (get_count_error self _ _ _ _ _ w _ data e y Hf Hd Hx Hc). cbn. tauto.
      * rewrite (get_expiry_error self _ _ _ _ _ w _ data e x Hf Hd Hx Hxc). cbn. tauto.
      * destruct (negb (Qle_bool (clock w (ticks w) - c) t)).
        -- rewrite (get_expired self _ _ _ _ _ w _ data e Hf Hd Hx). cbn. tauto.
        -- rewrite (get_count_error self _ _ _ _ _ w _ data e y Hf Hd Hx Hc). cbn. tauto.
    + rewrite (get_shape_mismatch self _ _ _ _ _ w data x Hf Hd). cbn. tauto.
  - rewrite (get_absent self _ _ _ _ _ w Hf). cbn. tauto.
Qed.

Variable self : CachedLLMGateway.t.
Variable bundle : PromptBundle.

Let prompt_str := CachedLLMGateway._prompt_bundle_to_string bundle.
Let lookup : M json :=
  LLMCache.get (CachedLLMGateway._cache self) (CachedLLMGateway.provider self)
    (CachedLLMGateway.model self) prompt_str (Some (temperature bundle))
    [("max_tokens", JInt (max_tokens bundle))].
Let store (response : json) : M string :=
  LLMCache.set (CachedLLMGateway._cache self) (CachedLLMGateway.provider self)
    (CachedLLMGateway.model self) prompt_str response (Some (temperature bundle)) None
    [("max_tokens", JInt (max_tokens bundle))].
Let key : string :=
  _compute_cache_key (CachedLLMGateway.provider self) (CachedLLMGateway.model self)
    prompt_str (Some (temperature bundle)) [("max_tokens", JInt (max_tokens bundle))].

Lemma call_unfold (w : World) (cached : json) (w1 : World) :
  CachedLLMGateway._enable_cache self = true ->
  lookup w = (Ok cached, w1) ->
  CachedLLMGateway.call self bundle w =
    if py_truthy cached then (CachedLLMGateway._dict_to_llm_response cached, w1)
    else
      match gw_call (CachedLLMGateway._gateway self) (upstream w) bundle with
      | Ok response =>
          (Ok response,
           snd (store (CachedLLMGateway._llm_response_to_dict response)
                  (log_upstream (CallEv bundle) w1)))
      | Raise x => (Raise x, log_upstream (CallEv bundle) w1)
      end.
Proof.
  intros Hen Hl. unfold CachedLLMGateway.call. rewrite Hen. cbn [negb].
  unfold bind at 1. fold prompt_str. fold lookup. rewrite Hl.
  destruct (py_truthy cached); [reflexivity|].
  unfold bind at 1, gateway_call.
  assert (Hup : upstream w1 = upstream w).
  { pose proof (get_frame (CachedLLMGateway._cache self) (CachedLLMGateway.provider self)
                  (CachedLLMGateway.model self) prompt_str (Some (temperature bundle))
                  [("max_tokens", JInt (max_tokens bundle))] w) as [Hu _].
    fold lookup in Hu. rewrite Hl in Hu. exact Hu. }
  rewrite Hup.
  destruct (gw_call (CachedLLMGateway._gateway self) (upstream w) bundle) as [response|x];
    [|reflexivity].
  fold store. unfold store. rewrite set_result. reflexivity.
Qed.

(** C7 (as amended).  When the lookup misses and the wrapped gateway
    raises, [call] raises the same exception and writes nothing after the
    lookup: the directory is as [get] left it, and is unchanged when the key
    had no file. *)
Theorem call_miss_gateway_error (w : World) (cached : json) (w1 : World) (x : exn) :
  CachedLLMGateway._enable_cache self = true ->
  lookup w = (Ok cached, w1) ->
  py_truthy cached = false ->
  gw_call (CachedLLMGateway._gateway self) (upstream w) bundle = Raise x ->
  fst (CachedLLMGateway.call self bundle w) = Raise x /\
  files (snd (CachedLLMGateway.call self bundle w)) = files w1 /\
  (files w !! key = None -> files (snd (CachedLLMGateway.call self bundle w)) = files w).
Proof.
  intros Hen Hl Hfalsy Hgw.
  rewrite (call_unfold w cached w1 Hen Hl), Hfalsy, Hgw. cbn [fst snd].
  split; [reflexivity|]. split; [reflexivity|].
  intros Habsent. cbn [files log_upstream].
  unfold lookup in Hl. rewrite (get_absent _ _ _ _ _ _ w Habsent) in Hl.
  injection Hl as _ <-. reflexivity.
Qed.

Lemma reyield_id (cs : list LLMResponse) : CachedLLMGateway.reyield cs = cs.
Proof. induction cs as [|c cs IH]; simpl; [reflexivity|]. rewrite IH. reflexivity. Qed.

(** C8.  Streaming bypasses the cache: [stream] yields exactly the chunk
    sequence of the wrapped gateway's [stream] and leaves the cache
    directory (and the clock) as they were, whatever the directory holds
    under the key of the request. *)
Theorem stream_bypasses_cache (w : World) :
  fst (CachedLLMGateway.stream self bundle w)
    = gw_stream (CachedLLMGateway._gateway self) (upstream w) bundle /\
  files (snd (CachedLLMGateway.stream self bundle w)) = files w /\
  ticks (snd (CachedLLMGateway.stream self bundle w)) = ticks w /\
  upstream (snd (CachedLLMGateway.stream self bundle w)) = (upstream w ++ [StreamEv bundle])%list.
Proof.
  unfold CachedLLMGateway.stream, gateway_stream.
  destruct (gw_stream (CachedLLMGateway._gateway self) (upstream w) bundle) as [cs stop].
  cbn [fst snd files ticks upstream log_upstream]. rewrite reyield_id. tauto.
Qed.

(** C10.  A cached payload that is falsy is handled as a miss: the wrapped
    gateway is called and its response stored afresh and returned; a truthy
    payload is answered from the cache without calling the gateway.  For a
    stored dict, the gateway is left alone exactly when the dict is
    non-empty. *)
Theorem call_falsy_payload_is_miss (w : World) (cached : json) (w1 : World) :
  CachedLLMGateway._enable_cache self = true ->
  lookup w = (Ok cached, w1) ->
  (py_truthy cached = false ->
     upstream (snd (CachedLLMGateway.call self bundle w)) = (upstream w ++ [CallEv bundle])%list /\
     forall response,
       gw_call (CachedLLMGateway._gateway self) (upstream w) bundle = Ok response ->
       fst (CachedLLMGateway.call self bundle w) = Ok response /\
       exists e, stored_entry (snd (CachedLLMGateway.call self bundle w)) key = Some e /\
                 CacheEntry.response e = CachedLLMGateway._llm_response_to_dict response /\
                 CacheEntry.access_count e = JInt 1) /\
  (py_truthy cached = true ->
     CachedLLMGateway.call self bundle w
       = (CachedLLMGateway._dict_to_llm_response cached, w1) /\
     upstream (snd (CachedLLMGateway.call self bundle w)) = upstream w) /\
  (forall kvs, cached = JObj kvs ->
     (upstream (snd (CachedLLMGateway.call self bundle w)) = upstream w <-> kvs <> [])).
Proof.
  intros Hen Hl.
  assert (Hup : upstream w1 = upstream w).
  { pose proof (get_frame (CachedLLMGateway._cache self) (CachedLLMGateway.provider self)
                  (CachedLLMGateway.model self) prompt_str (Some (temperature bundle))
                  [("max_tokens", JInt (max_tokens bundle))] w) as [Hu _].
    fold lookup in Hu. rewrite Hl in Hu. exact Hu. }
  assert (Hmiss : py_truthy cached = false ->
            upstream (snd (CachedLLMGateway.call self bundle w)) = (upstream w ++ [CallEv bundle])%list).
  { intros Hfalsy. rewrite (call_unfold w cached w1 Hen Hl), Hfalsy.
    destruct (gw_call _ _ _) as [response|x]; cbn [snd].
    - unfold store. rewrite set_result.
      cbn [snd upstream set_files tick log_upstream]. rewrite Hup. reflexivity.
    - cbn [snd upstream log_upstream]. rewrite Hup. reflexivity. }
  assert (Hhit : py_truthy cached = true ->
            upstream (snd (CachedLLMGateway.call self bundle w)) = upstream w).
  { intros Htruthy. rewrite (call_unfold w cached w1 Hen Hl), Htruthy. exact Hup. }
  split; [|split].
  - intros Hfalsy. split; [exact (Hmiss Hfalsy)|].
    intros response Hgw.
    rewrite (call_unfold w cached w1 Hen Hl), Hfalsy, Hgw. cbn [fst snd].
    split; [reflexivity|].
    unfold store, key. rewrite stored_entry_after_set.
    eexists. split; [reflexivity|].
    cbn [CacheEntry.response CacheEntry.access_count]. tauto.
  - intros Htruthy. split; [|exact (Hhit Htruthy)].
    rewrite (call_unfold w cached w1 Hen Hl), Htruthy. reflexivity.
  - intros kvs ->. split.
    + intros Hsame Hnil. subst kvs.
      rewrite (Hmiss eq_refl) in Hsame.
      apply (f_equal (@length upstream_event)) in Hsame.
      rewrite length_app in Hsame. cbn [length] in Hsame. lia.
    + intros Hne. apply Hhit. destruct kvs; [congruence|reflexivity].
Qed.

End GatewayProperties.

Section StatsProperties.
Context `{PyRuntime}.

(** Scanning files none of which is JSON only adds up their sizes. *)
Lemma scan_not_json (l : list (string * file)) (a : LLMCache.scan) (w : World) :
  Forall (fun kf => is_not_json (snd kf)) l ->
  for_each LLMCache.scan_file l a w =
    (Ok (LLMCache.mkScan (LLMCache.total_entries a) (LLMCache.expired_entries a)
           (LLMCache.total_size_bytes a + fold_right (fun kf n => st_size (snd kf) + n) 0 l)%Z
           (LLMCache.total_accesses a) (LLMCache.oldest_entry a) (LLMCache.newest_entry a)),
     w).
Proof.
  intros Hall. revert a. induction Hall as [|[k f] l Hf Hall IH]; intros a.
  - cbn. rewrite Z.add_0_r. destruct a; reflexivity.
  - destruct f as [raw|doc]; [|destruct Hf].
    cbn [for_each]. unfold bind at 1.
    assert (Hstep : LLMCache.scan_file a (k, NotJson raw) w =
              (Ok (LLMCache.mkScan (LLMCache.total_entries a) (LLMCache.expired_entries a)
                     (LLMCache.total_size_bytes a + st_size (NotJson raw))%Z
                     (LLMCache.total_accesses a) (LLMCache.oldest_entry a)
                     (LLMCache.newest_entry a)), w)) by reflexivity.
    rewrite Hstep, IH. cbn [LLMCache.total_entries LLMCache.expired_entries
      LLMCache.total_size_bytes LLMCache.total_accesses LLMCache.oldest_entry
      LLMCache.newest_entry foldr fold_right snd].
    rewrite Z.add_assoc. reflexivity.
Qed.

(** A namespace with no JSON file at all (empty, or only undecodable
    files) reports zero entries and zero averages and ages. *)
Lemma get_stats_no_json (self : LLMCache.t) (w : World) :
  map_Forall (fun _ f => is_not_json f) (files w) ->
  exists s, LLMCache.get_stats self w = (Ok s, w) /\
            LLMCache.stat_total_entries s = 0%Z /\
            LLMCache.stat_avg_accesses_per_entry s = JInt 0 /\
            LLMCache.stat_oldest_entry_age_days s = JInt 0 /\
            LLMCache.stat_newest_entry_age_days s = JInt 0.
Proof.
  intros Hall.
  assert (Hl : Forall (fun kf => is_not_json (snd kf)) (map_to_list (files w))).
  { apply Forall_forall. intros [k f] Hin. apply elem_of_map_to_list in Hin.
    exact (Hall k f Hin). }
  unfold LLMCache.get_stats. unfold bind at 1. rewrite (scan_not_json _ _ _ Hl).
  cbn. eexists. split; [reflexivity|]. cbn. tauto.
Qed.

(** Whenever [get_stats] returns, the active count is the total minus the
    expired count. *)
Lemma get_stats_active (self : LLMCache.t) (w : World) (s : LLMCache.stats) :
  fst (LLMCache.get_stats self w) = Ok s ->
  LLMCache.stat_active_entries s =
    (LLMCache.stat_total_entries s - LLMCache.stat_expired_entries s)%Z.
Proof.
  unfold LLMCache.get_stats, bind.
  destruct (for_each _ _ _ w) as [[a|x] w1]; [|discriminate].
  destruct (if (LLMCache.total_entries a >? 0)%Z then _ else _) as [[avg|x] w2]; [|discriminate].
  destruct (LLMCache.age_days (LLMCache.oldest_entry a) w2) as [[o|x] w3]; [|discriminate].
  destruct (LLMCache.age_days (LLMCache.newest_entry a) w3) as [[n|x] w4]; [|discriminate].
  cbn. intros [= <-]. reflexivity.
Qed.

(** C9.  A namespace whose only file holds the JSON object [{}] has no
    parsable entry, yet [get_stats] does not return: [from_dict] raises
    [TypeError], which the handler of the scan does not catch. *)
Theorem get_stats_shape_mismatch_raises (self : LLMCache.t) (name : string)
    (clk : nat -> Q) (t : nat) (up : list upstream_event) :
  fst (LLMCache.get_stats self (mkWorld {[name := JsonText (JObj [])]} clk t up))
  = Raise TypeError.
Proof.
  unfold LLMCache.get_stats. unfold bind at 1. cbn [files].
  rewrite map_to_list_singleton. reflexivity.
Qed.

End StatsProperties.

(** C7, counterexample.  The key of the request holds an expired entry and
    the gateway fails: [call] raises the gateway's exception, and the
    directory has changed, the lookup having removed the expired file. *)
Lemma call_miss_evicts_expired_entry :
  let self := CachedLLMGateway.mk failing_gateway "project" true example_cache in
  let r := CachedLLMGateway.call (H := example_runtime) self example_bundle expired_world in
  fst r = Raise (OtherError "RateLimitError") /\
  files expired_world !! bundle_key <> None /\
  files (snd r) !! bundle_key = None /\
  files (snd r) <> files expired_world.
Proof.
  intros self r.
  assert (H1 : files expired_world !! bundle_key <> None) by (vm_compute; discriminate).
  assert (H2 : files (snd r) !! bundle_key = None) by (vm_compute; reflexivity).
  split; [vm_compute; reflexivity|]. split; [exact H1|]. split; [exact H2|].
  intros Heq. rewrite Heq in H2. exact (H1 H2).
Qed.

(** ** Witnesses *)

Lemma compute_cache_key_order_insensitive_witness :
  _compute_cache_key (H := example_runtime) "openai" "gpt-4o" "Hello" (Some (7 # 10))
    [("max_tokens", JInt 4096); ("top_p", JInt 1)] =
  _compute_cache_key (H := example_runtime) "openai" "gpt-4o" "Hello" (Some (7 # 10))
    [("top_p", JInt 1); ("max_tokens", JInt 4096)].
Proof.
  apply compute_cache_key_order_insensitive.
  - apply (bool_decide_unpack _). vm_compute. exact I.
  - apply perm_swap.
Defined.

Lemma set_then_get_roundtrip_witness :
  fst (LLMCache.get (H := example_runtime) example_cache "openai" "gpt-4o" "Hello"
         (Some (7 # 10)) []
         (snd (LLMCache.set (H := example_runtime) example_cache "openai" "gpt-4o" "Hello"
                 (JObj [("content", JStr "Bonjour")]) (Some (7 # 10)) None []
                 ticking_world)))
  = Ok (JObj [("content", JStr "Bonjour")]).
Proof.
  apply set_then_get_roundtrip. vm_compute. discriminate.
Defined.

Lemma access_bookkeeping_witness :
  let get := LLMCache.get (H := example_runtime) example_cache "openai" "gpt-4o" "Hello"
               (Some (7 # 10)) [] in
  let w1 := snd (LLMCache.set (H := example_runtime) example_cache "openai" "gpt-4o" "Hello"
                   (JObj [("content", JStr "Bonjour")]) (Some (7 # 10)) None []
                   ticking_world) in
  CacheEntry.access_count <$>
    stored_entry (snd (get (snd (get w1))))
      (_compute_cache_key (H := example_runtime) "openai" "gpt-4o" "Hello" (Some (7 # 10)) [])
  = Some (JInt 3).
Proof.
  intros get w1.
  refine (proj2 (proj2 (access_bookkeeping (H := example_runtime) example_cache "openai"
            "gpt-4o" "Hello" (Some (7 # 10)) [] (JObj [("content", JStr "Bonjour")]) None
            ticking_world w1
            (CacheEntry.mk (JObj [("content", JStr "Bonjour")])
               (JStr (_compute_cache_key (H := example_runtime) "openai" "gpt-4o" "Hello"
                        (Some (7 # 10)) []))
               (JStr "openai") (JStr "gpt-4o")
               (JStr (_compute_prompt_hash (H := example_runtime) "Hello"))
               (JFloat 100) (JFloat 101) (JInt 1) (JInt 2592000)
               (JObj [("temperature", JFloat (7 # 10))]))
            1 _ _ _ _ _))).
  - vm_compute. discriminate.
  - vm_compute. discriminate.
  - vm_compute. reflexivity.
  - reflexivity.
  - vm_compute. reflexivity.
Defined.

Lemma call_miss_gateway_error_witness :
  let self := CachedLLMGateway.mk failing_gateway "project" true example_cache in
  let r := CachedLLMGateway.call (H := example_runtime) self example_bundle expired_world in
  fst r = Raise (OtherError "RateLimitError") /\
  files (snd r) = delete bundle_key (files expired_world).
Proof.
  intros self r.
  destruct (call_miss_gateway_error (H := example_runtime) self example_bundle expired_world
              JNull
              (set_files (delete bundle_key (files expired_world))
                 (mkWorld (files expired_world) (clock expired_world)
                    (S (ticks expired_world)) (upstream expired_world)))
              (OtherError "RateLimitError"))
    as (Hraise & Hfiles & _).
  - reflexivity.
  - vm_compute. reflexivity.
  - reflexivity.
  - reflexivity.
  - split; [exact Hraise|exact Hfiles].
Defined.

Lemma call_falsy_payload_is_miss_witness :
  let self := CachedLLMGateway.mk answering_gateway "project" true example_cache in
  let r := CachedLLMGateway.call (H := example_runtime) self example_bundle falsy_world in
  fst r = Ok example_response /\
  upstream (snd r) = (upstream falsy_world ++ [CallEv example_bundle])%list.
Proof.
  intros self r.
  destruct (call_falsy_payload_is_miss (H := example_runtime) self example_bundle falsy_world
              (JObj [])
              (snd (LLMCache.get (H := example_runtime) example_cache "openai" "gpt-4o"
                      (CachedLLMGateway._prompt_bundle_to_string (H := example_runtime)
                         example_bundle)
                      (Some (temperature example_bundle))
                      [("max_tokens", JInt (max_tokens example_bundle))] falsy_world)))
    as (Hmiss & _ & _).
  - reflexivity.
  - apply injective_projections; cbn [fst snd]; [vm_compute; reflexivity|reflexivity].
  - destruct (Hmiss eq_refl) as [Hup Hresp].
    destruct (Hresp example_response eq_refl) as [Hr _].
    split; [exact Hr|exact Hup].
Defined.

(** * Further properties of the cache and of the decorator *)

Section CacheFrame.
Context `{PyRuntime}.

(** [get] touches no file but the one of its key, whatever its outcome. *)
Theorem get_other_keys_untouched (self : LLMCache.t) (provider model prompt : string)
    (temperature : option Q) (kwargs : dict) (w : World) (k : string) :
  k <> _compute_cache_key provider model prompt temperature kwargs ->
  files (snd (LLMCache.get self provider model prompt temperature kwargs w)) !! k
  = files w !! k.
Proof.
  set (key := _compute_cache_key provider model prompt temperature kwargs).
  intros Hk.
  assert (Hk' : key <> k) by (intros Heq; apply Hk; symmetry; exact Heq).
  destruct (files w !! key) as [[raw|data]|] eqn:Hf.
  - rewrite (get_not_json self _ _ _ _ _ w raw Hf). cbn [snd files set_files].
    apply lookup_delete_ne. exact Hk'.
  - destruct (CacheEntry.from_dict data) as [e|x] eqn:Hd.
    + destruct (num_add (CacheEntry.access_count e) (JInt 1)) as [count|y] eqn:Hc;
      destruct (is_expired_outcome e w) as [[Hx _]|[(x & Hx & Hxc & _)|(c & t & _ & _ & Hx)]].
      * rewrite (get_hit self _ _ _ _ _ w _ data e count Hf Hd Hx Hc).
        cbn [snd files set_files]. apply lookup_insert_ne. exact Hk'.
      * rewrite (get_expiry_error self _ _ _ _ _ w _ data e x Hf Hd Hx Hxc). reflexivity.
      * destruct (negb (Qle_bool (clock w (ticks w) - c) t)).
        -- rewrite (get_expired self _ _ _ _ _ w _ data e Hf Hd Hx).
           cbn [snd files set_files tick]. apply lookup_delete_ne. exact Hk'.
        -- rewrite (get_hit self _ _ _ _ _ w _ data e count Hf Hd Hx Hc).
           cbn [snd files set_files tick]. apply lookup_insert_ne. exact Hk'.
      * rewrite (get_count_error self _ _ _ _ _ w _ data e y Hf Hd Hx Hc). reflexivity.
      * rewrite (get_expiry_error self _ _ _ _ _ w _ data e x Hf Hd Hx Hxc). reflexivity.
      * destruct (negb (Qle_bool (clock w (ticks w) - c) t)).
        -- rewrite (get_expired self _ _ _ _ _ w _ data e Hf Hd Hx).
           cbn [snd files set_files tick]. apply lookup_delete_ne. exact Hk'.
        -- rewrite (get_count_error self _ _ _ _ _ w _ data e y Hf Hd Hx Hc). reflexivity.
    + rewrite (get_shape_mismatch self _ _ _ _ _ w data x Hf Hd). reflexivity.
  - rewrite (get_absent self _ _ _ _ _ w Hf). reflexivity.
Qed.

(** Last write wins: after two [set]s under the same key, a read that finds
    the entry live returns the second response, and the persisted count is
    [2] (one for the second [set], one for the read). *)
Theorem set_twice_last_wins (self : LLMCache.t) (provider model prompt : string)
    (response1 response2 : json) (temperature : option Q) (ttl1 ttl2 : option Z)
    (kwargs : dict) (w : World) :
  let key := _compute_cache_key provider model prompt temperature kwargs in
  let w1 := snd (LLMCache.set self provider model prompt response1 temperature ttl1 kwargs w) in
  let w2 := snd (LLMCache.set self provider model prompt response2 temperature ttl2 kwargs w1) in
  let r := LLMCache.get self provider model prompt temperature kwargs w2 in
  (clock w (4 + ticks w) - clock w (2 + ticks w)
     <= inject_Z (int_or ttl2 (LLMCache.ttl_seconds self)))%Q ->
  fst r = Ok response2 /\
  CacheEntry.access_count <$> stored_entry (snd r) key = Some (JInt 2).
Proof.
  intros key w1 w2 r Hlive.
  pose proof (stored_entry_after_set self provider model prompt response2 temperature ttl2
                kwargs w1) as Hs.
  cbn zeta in Hs. fold key in Hs. fold w2 in Hs.
  assert (Hw1 : ticks w1 = S (S (ticks w)) /\ clock w1 = clock w).
  { subst w1. rewrite set_result. cbn [snd ticks clock set_files tick]. tauto. }
  destruct Hw1 as [Ht1 Hc1].
  assert (Hw2 : ticks w2 = S (S (ticks w1)) /\ clock w2 = clock w1).
  { subst w2. rewrite set_result. cbn [snd ticks clock set_files tick]. tauto. }
  destruct Hw2 as [Ht2 Hc2].
  set (e2 := CacheEntry.mk _ _ _ _ _ _ _ _ _ _) in Hs.
  assert (Hg : r = (Ok (CacheEntry.response e2),
                    set_files (<[key := JsonText (CacheEntry.to_dict
                                   (accessed e2 (clock w2 (S (ticks w2))) (JInt (1 + 1))))]>
                                 (files w2)) (tick (tick w2)))).
  { apply (get_live_entry self provider model prompt temperature kwargs w2 e2
             (clock w1 (ticks w1)) (int_or ttl2 (LLMCache.ttl_seconds self)) 1 Hs
             eq_refl eq_refl eq_refl).
    rewrite Ht2, Hc2, Ht1, Hc1. exact Hlive. }
  rewrite Hg. cbn [fst snd]. split; [reflexivity|].
  rewrite stored_entry_insert. reflexivity.
Qed.

(** [invalidate] after [set] reports a deletion, and the next [get] is a
    miss that neither reads the clock nor changes the directory. *)
Theorem invalidate_after_set (self : LLMCache.t) (provider model prompt : string)
    (response : json) (temperature : option Q) (ttl : option Z) (kwargs : dict)
    (w : World) :
  let key := _compute_cache_key provider model prompt temperature kwargs in
  let w1 := snd (LLMCache.set self provider model prompt response temperature ttl kwargs w) in
  let w2 := snd (LLMCache.invalidate self key w1) in
  fst (LLMCache.invalidate self key w1) = Ok true /\
  files w2 = delete key (files w) /\
  LLMCache.get self provider model prompt temperature kwargs w2 = (Ok JNull, w2).
Proof.
  intros key w1 w2.
  assert (Hf1 : files w1 !! key = Some (JsonText (CacheEntry.to_dict
            (CacheEntry.mk response (JStr key) (JStr provider) (JStr model)
               (JStr (_compute_prompt_hash prompt))
               (JFloat (clock w (ticks w))) (JFloat (clock w (S (ticks w))))
               (JInt 1) (JInt (int_or ttl (LLMCache.ttl_seconds self)))
               (JObj (dict_update [("temperature", opt_float temperature)] kwargs)))))).
  { subst w1. rewrite set_result. cbn [snd files set_files]. apply lookup_insert_eq. }
  assert (Hinv : LLMCache.invalidate self key w1
                 = (Ok true, set_files (delete key (files w1)) w1)).
  { unfold LLMCache.invalidate, bind, path_exists. rewrite Hf1.
    rewrite bool_decide_eq_true_2 by eauto. reflexivity. }
  assert (Hf2 : files w2 = delete key (files w)).
  { subst w2. rewrite Hinv. cbn [snd files set_files].
    subst w1. rewrite set_result. cbn [snd files set_files]. apply delete_insert_eq. }
  split; [rewrite Hinv; reflexivity|]. split; [exact Hf2|].
  apply get_absent. fold key. rewrite Hf2. apply lookup_delete_eq.
Qed.

End CacheFrame.

Lemma set_files_set_files (fs fs' : gmap string file) (w : World) :
  set_files fs' (set_files fs w) = set_files fs' w.
Proof. reflexivity. Qed.

Lemma lookup_foldl_delete (l : list (string * file)) (m : gmap string file) (i : string) :
  foldl (fun fs kf => delete (fst kf) fs) m l !! i =
  if decide (i ∈ map fst l) then None else m !! i.
Proof.
  revert m. induction l as [|[k f] l IH]; intros m; cbn [foldl map fst].
  - destruct (decide (i ∈ [])) as [Hin|_]; [|reflexivity].
    apply elem_of_nil in Hin. destruct Hin.
  - rewrite IH. destruct (decide (i ∈ map fst l)) as [Hin|Hnin].
    + rewrite decide_True by (right; exact Hin). reflexivity.
    + destruct (decide (i = k)) as [->|Hne].
      * rewrite decide_True by left. apply lookup_delete_eq.
      * rewrite decide_False by (intros Hc; apply elem_of_cons in Hc; tauto).
        apply lookup_delete_ne. congruence.
Qed.

Lemma clear_all_loop (l : list (string * file)) (count : Z) (w : World) :
  for_each (fun count cache_file => unlink (fst cache_file) ;; ret (count + 1)) l count w =
  (Ok (count + Z.of_nat (length l))%Z,
   set_files (foldl (fun fs kf => delete (fst kf) fs) (files w) l) w).
Proof.
  revert count w. induction l as [|[k f] l IH]; intros count w.
  - cbn [for_each length foldl Z.of_nat]. rewrite Z.add_0_r. destruct w; reflexivity.
  - cbn [for_each]. unfold bind at 1. unfold bind at 1, unlink at 1, ret at 1.
    cbn [fst]. rewrite IH. cbn [files set_files foldl fst length].
    rewrite set_files_set_files. f_equal. f_equal. lia.
Qed.

Lemma clear_all_result (self : LLMCache.t) (w : World) :
  LLMCache.clear_all self w = (Ok (Z.of_nat (size (files w))), set_files ∅ w).
Proof.
  unfold LLMCache.clear_all. rewrite clear_all_loop. cbn [Z.add].
  rewrite length_map_to_list. f_equal. f_equal.
  apply map_eq. intros i. rewrite lookup_foldl_delete, lookup_empty.
  destruct (decide (i ∈ map fst (map_to_list (files w)))) as [_|Hnin]; [reflexivity|].
  destruct (files w !! i) as [f|] eqn:Hf; [|reflexivity].
  exfalso. apply Hnin. apply elem_of_map_to_list in Hf.
  apply (elem_of_keys _ _ _ Hf).
Qed.

(** [clear_all] returns the number of files there were and leaves the
    directory empty, without reading the clock; the next [get] of any key is
    a miss. *)
Theorem clear_all_empties `{PyRuntime} (self : LLMCache.t) (w : World)
    (provider model prompt : string) (temperature : option Q) (kwargs : dict) :
  let w' := set_files ∅ w in
  LLMCache.clear_all self w = (Ok (Z.of_nat (size (files w))), w') /\
  LLMCache.get self provider model prompt temperature kwargs w' = (Ok JNull, w').
Proof.
  intros w'. split; [apply clear_all_result|].
  apply get_absent. apply lookup_empty.
Qed.

Lemma clear_expired_step (count : Z) (k : string) (f : file) (w : World)
    (count' : Z) (w' : World) :
  LLMCache.clear_expired_file count (k, f) w = (Ok count', w') ->
  (files w' = files w /\ count' = count /\ is_json f \/
   files w' = delete k (files w) /\ count' = (count + 1)%Z) /\
  clock w' = clock w /\ upstream w' = upstream w.
Proof.
  unfold LLMCache.clear_expired_file, try_except, bind, lift. cbn [fst snd].
  destruct f as [raw|doc]; cbn [json_load LLMCache.invalid_cache_file].
  - unfold unlink, ret. intros [= <- <-]. cbn. tauto.
  - destruct (CacheEntry.from_dict doc) as [e|x] eqn:Hd.
    + destruct (is_expired_outcome e w) as [[Hx _]|[(x & Hx & Hxc & _)|(c & t & _ & _ & Hx)]]; rewrite Hx.
      * unfold ret. intros [= <- <-]. split; [left; unfold is_json; eauto|tauto].
      * destruct Hxc as [-> | ->]; cbn; discriminate.
      * destruct (negb (Qle_bool (clock w (ticks w) - c) t)).
        -- unfold unlink, ret. intros [= <- <-]. cbn. tauto.
        -- unfold ret. intros [= <- <-]. cbn. split; [left; unfold is_json; eauto|tauto].
    + rewrite (from_dict_raises _ _ Hd). cbn. discriminate.
Qed.

Lemma clear_expired_loop (l : list (string * file)) (count : Z) (w : World)
    (n : Z) (w' : World) :
  NoDup (map fst l) ->
  (forall k f, (k, f) ∈ l -> files w !! k = Some f) ->
  for_each LLMCache.clear_expired_file l count w = (Ok n, w') ->
  files w' ⊆ files w /\
  (Z.of_nat (size (files w')) + (n - count) = Z.of_nat (size (files w)))%Z /\
  (forall k f, (k, f) ∈ l -> is_Some (files w' !! k) -> is_json f) /\
  (forall k, k ∉ map fst l -> files w' !! k = files w !! k).
Proof.
  revert count w. induction l as [|[k f] l IH]; intros count w Hnd Hin.
  - cbn [for_each]. unfold ret. intros [= <- <-].
    split; [reflexivity|]. split; [lia|]. split; [|reflexivity].
    intros k f Hk. apply elem_of_nil in Hk. destruct Hk.
  - cbn [for_each]. unfold bind at 1.
    destruct (LLMCache.clear_expired_file count (k, f) w) as [[c1|x] w1] eqn:Hstep;
      [|discriminate].
    cbn [map fst] in Hnd. apply NoDup_cons in Hnd as [Hk Hnd].
    destruct (clear_expired_step count k f w c1 w1 Hstep) as [Hcase _].
    assert (Hkf : files w !! k = Some f) by (apply Hin; left).
    assert (Hin1 : forall k' f', (k', f') ∈ l -> files w1 !! k' = Some f').
    { intros k' f' Hk'. assert (k <> k').
      { intros ->. apply Hk. apply (elem_of_keys _ _ _ Hk'). }
      destruct Hcase as [(-> & _ & _)|(-> & _)].
      - apply Hin. right. exact Hk'.
      - rewrite lookup_delete_ne by assumption. apply Hin. right. exact Hk'. }
    intros Hrest. destruct (IH c1 w1 Hnd Hin1 Hrest) as (Hsub & Hsize & Hjson & Hother).
    assert (Hk1 : files w' !! k = files w1 !! k) by (apply Hother; exact Hk).
    destruct Hcase as [(Hf1 & -> & Hj)|(Hf1 & ->)]; rewrite Hf1 in *.
    + split; [exact Hsub|]. split; [exact Hsize|]. split.
      * intros k' f' Hk' Hsome. apply elem_of_cons in Hk' as [[= -> ->]|Hk'];
          [exact Hj|exact (Hjson k' f' Hk' Hsome)].
      * intros k' Hk'. cbn [map fst] in Hk'. apply not_elem_of_cons in Hk' as [_ Hk'].
        apply Hother. exact Hk'.
    + split; [etrans; [exact Hsub|apply delete_subseteq]|].
      split.
      { rewrite map_size_delete_Some in Hsize by eauto.
        assert (size (files w) <> 0%nat).
        { apply map_size_ne_0_lookup. exists k. eauto. }
        lia. }
      split.
      * intros k' f' Hk' Hsome. apply elem_of_cons in Hk' as [[= -> ->]|Hk'];
          [|exact (Hjson k' f' Hk' Hsome)].
        rewrite Hk1, lookup_delete_eq in Hsome. destruct Hsome; discriminate.
      * intros k' Hk'. cbn [map fst] in Hk'. apply not_elem_of_cons in Hk' as [Hne Hk'].
        rewrite (Hother k' Hk'). apply lookup_delete_ne. congruence.
Qed.

(** When [clear_expired] returns, the files that remain are files that were
    there, unchanged; none of them is undecodable; and the count returned is
    the number of files removed. *)
Theorem clear_expired_result (self : LLMCache.t) (w : World) (n : Z) (w' : World) :
  LLMCache.clear_expired self w = (Ok n, w') ->
  files w' ⊆ files w /\
  (forall k f, files w' !! k = Some f -> is_json f) /\
  n = (Z.of_nat (size (files w)) - Z.of_nat (size (files w')))%Z.
Proof.
  unfold LLMCache.clear_expired. intros Hrun.
  destruct (clear_expired_loop (map_to_list (files w)) 0 w n w') as (Hsub & Hsize & Hjson & _).
  - apply NoDup_fst_map_to_list.
  - intros k f Hk. apply elem_of_map_to_list. exact Hk.
  - exact Hrun.
  - split; [exact Hsub|]. split; [|lia].
    intros k f Hf. apply (Hjson k f); [|eauto].
    apply elem_of_map_to_list. eapply lookup_weaken; eassumption.
Qed.

Lemma read_only_ret {A} (a : A) : read_only (ret a).
Proof. intros w. cbn. tauto. Qed.

Lemma read_only_lift {A} (r : result A) : read_only (lift r).
Proof. intros w. cbn. tauto. Qed.

Lemma read_only_time : read_only time_time.
Proof. intros w. cbn. tauto. Qed.

Lemma read_only_bind {A C} (m : M A) (k : A -> M C) :
  read_only m -> (forall a, read_only (k a)) -> read_only (bind m k).
Proof.
  intros Hm Hk w. unfold bind. specialize (Hm w).
  destruct (m w) as [[a|x] w1]; cbn [snd] in *.
  - destruct (Hk a w1) as (Hf & Hu & Hc). destruct Hm as (Hf1 & Hu1 & Hc1).
    rewrite Hf, Hu, Hc. tauto.
  - exact Hm.
Qed.

Lemma read_only_try {A} (body handler : M A) (caught : exn -> bool) :
  read_only body -> read_only handler -> read_only (try_except body caught handler).
Proof.
  intros Hb Hh w. unfold try_except. specialize (Hb w).
  destruct (body w) as [[a|x] w1]; cbn [snd] in *; [exact Hb|].
  destruct (caught x); [|exact Hb].
  destruct (Hh w1) as (Hf & Hu & Hc). destruct Hb as (Hf1 & Hu1 & Hc1).
  rewrite Hf, Hu, Hc. tauto.
Qed.

Lemma read_only_for_each {A S} (step : S -> A -> M S) (l : list A) (s : S) :
  (forall s x, read_only (step s x)) -> read_only (for_each step l s).
Proof.
  intros Hstep. revert s. induction l as [|x l IH]; intros s; cbn [for_each].
  - apply read_only_ret.
  - apply read_only_bind; [apply Hstep|]. intros s'. apply IH.
Qed.

Lemma read_only_is_expired (e : CacheEntry.t) : read_only (CacheEntry.is_expired e).
Proof.
  unfold CacheEntry.is_expired.
  destruct (CacheEntry.ttl_seconds e); try apply read_only_ret;
    (apply read_only_bind; [apply read_only_time|]; intros now;
     apply read_only_bind; [apply read_only_lift|]; intros age; apply read_only_lift).
Qed.

Section StatsFrame.
Context `{PyRuntime}.

Lemma read_only_scan_file (a : LLMCache.scan) (cache_file : string * file) :
  read_only (LLMCache.scan_file a cache_file).
Proof.
  unfold LLMCache.scan_file. apply read_only_try; [|apply read_only_ret].
  apply read_only_bind; [apply read_only_lift|]. intros data.
  apply read_only_bind; [apply read_only_lift|]. intros entry.
  apply read_only_bind; [apply read_only_lift|]. intros accesses.
  apply read_only_bind; [apply read_only_is_expired|]. intros expired.
  apply read_only_bind.
  { destruct (LLMCache.oldest_entry _); first [apply read_only_ret|apply read_only_lift]. }
  intros older. apply read_only_bind.
  { destruct (LLMCache.newest_entry _); first [apply read_only_ret|apply read_only_lift]. }
  intros newer. apply read_only_ret.
Qed.

Lemma read_only_age_days (t : json) : read_only (LLMCache.age_days t).
Proof.
  unfold LLMCache.age_days. destruct (py_truthy t); [|apply read_only_ret].
  apply read_only_bind; [apply read_only_time|]. intros now.
  apply read_only_bind; [apply read_only_lift|]. intros age. apply read_only_ret.
Qed.

(** [get_stats] is read-only: whether it returns or raises, the directory
    is as before, and so are the gateway log and the clock oracle. *)
Theorem get_stats_read_only (self : LLMCache.t) : read_only (LLMCache.get_stats self).
Proof.
  intros w. unfold LLMCache.get_stats.
  apply (read_only_bind (for_each LLMCache.scan_file (map_to_list (files w)) _)).
  - apply read_only_for_each. intros s x. apply read_only_scan_file.
  - intros a. apply read_only_bind.
    + destruct (LLMCache.total_entries a >? 0); [|apply read_only_ret].
      apply read_only_bind; [apply read_only_lift|]. intros q. apply read_only_ret.
    + intros avg. apply read_only_bind; [apply read_only_age_days|]. intros o.
      apply read_only_bind; [apply read_only_age_days|]. intros n. apply read_only_ret.
Qed.

End StatsFrame.

Lemma bind_Ok {A C} (m : M A) (k : A -> M C) (w : World) (c : C) (w' : World) :
  bind m k w = (Ok c, w') -> exists a w1, m w = (Ok a, w1) /\ k a w1 = (Ok c, w').
Proof.
  unfold bind. destruct (m w) as [[a|x] w1]; [|discriminate]. eauto.
Qed.

Lemma bind_eq {A C} (m : M A) (k : A -> M C) (w w1 : World) (a : A) :
  m w = (Ok a, w1) -> bind m k w = k a w1.
Proof. intros Hm. unfold bind. rewrite Hm. reflexivity. Qed.

Section StatsCounters.
Context `{PyRuntime}.

Lemma scan_file_counts (a : LLMCache.scan) (cache_file : string * file) (w : World)
    (a' : LLMCache.scan) (w' : World) :
  LLMCache.scan_file a cache_file w = (Ok a', w') ->
  LLMCache.total_size_bytes a' = LLMCache.total_size_bytes a + st_size (snd cache_file) /\
  (LLMCache.total_entries a' = LLMCache.total_entries a /\
   LLMCache.expired_entries a' = LLMCache.expired_entries a \/
   LLMCache.total_entries a' = LLMCache.total_entries a + 1 /\
   (LLMCache.expired_entries a' = LLMCache.expired_entries a \/
    LLMCache.expired_entries a' = LLMCache.expired_entries a + 1)).
Proof.
  unfold LLMCache.scan_file, try_except.
  match goal with |- context [bind ?m ?k w] => destruct (bind m k w) as [[a2|x] w1] eqn:Hb end.
  - intros [= <- <-].
    apply bind_Ok in Hb as (data & w2 & _ & Hb).
    apply bind_Ok in Hb as (entry & w3 & _ & Hb).
    apply bind_Ok in Hb as (accesses & w4 & _ & Hb).
    apply bind_Ok in Hb as (expired & w5 & _ & Hb).
    apply bind_Ok in Hb as (older & w6 & _ & Hb).
    apply bind_Ok in Hb as (newer & w7 & _ & Hb).
    unfold ret in Hb. injection Hb as <- <-.
    cbn [LLMCache.total_size_bytes LLMCache.total_entries LLMCache.expired_entries].
    split; [reflexivity|]. right. split; [reflexivity|].
    destruct expired; [right|left]; reflexivity.
  - destruct (LLMCache.invalid_cache_file x); [|discriminate].
    unfold ret. intros [= <- <-].
    cbn [LLMCache.total_size_bytes LLMCache.total_entries LLMCache.expired_entries].
    split; [reflexivity|]. left. split; reflexivity.
Qed.

Lemma scan_counts (l : list (string * file)) (a : LLMCache.scan) (w : World)
    (a' : LLMCache.scan) (w' : World) :
  for_each LLMCache.scan_file l a w = (Ok a', w') ->
  LLMCache.total_size_bytes a' = LLMCache.total_size_bytes a + listing_size l /\
  LLMCache.total_entries a <= LLMCache.total_entries a'
    <= LLMCache.total_entries a + Z.of_nat (length l) /\
  LLMCache.expired_entries a <= LLMCache.expired_entries a' /\
  LLMCache.expired_entries a' - LLMCache.expired_entries a
    <= LLMCache.total_entries a' - LLMCache.total_entries a.
Proof.
  revert a w. induction l as [|kf l IH]; intros a w; cbn [for_each].
  - unfold ret. intros [= <- <-]. cbn [listing_size fold_right length]. lia.
  - intros Hrun. apply bind_Ok in Hrun as (a1 & w1 & Hstep & Hrun).
    apply scan_file_counts in Hstep as (Hsize & Hcount).
    apply IH in Hrun as (Hsize' & Htotal & Hexp & Hdiff).
    unfold listing_size in *. cbn [fold_right length].
    rewrite Nat2Z.inj_succ. lia.
Qed.

(** The counters [get_stats] reports obey
    [0 <= expired <= total <= number of files], so the active count is never
    negative, and the size reported is the sum over all files, entries or
    not. *)
Theorem get_stats_counters (self : LLMCache.t) (w : World) (s : LLMCache.stats) :
  fst (LLMCache.get_stats self w) = Ok s ->
  0 <= LLMCache.stat_expired_entries s <= LLMCache.stat_total_entries s /\
  LLMCache.stat_total_entries s <= Z.of_nat (size (files w)) /\
  0 <= LLMCache.stat_active_entries s /\
  LLMCache.stat_total_size_bytes s = listing_size (map_to_list (files w)).
Proof.
  unfold LLMCache.get_stats. intros Hrun.
  destruct (bind _ _ w) as [r w'] eqn:Hb. cbn [fst] in Hrun. subst r.
  apply bind_Ok in Hb as (a & w1 & Hscan & Hb).
  apply bind_Ok in Hb as (avg & w2 & _ & Hb).
  apply bind_Ok in Hb as (o & w3 & _ & Hb).
  apply bind_Ok in Hb as (n & w4 & _ & Hb).
  unfold ret in Hb. injection Hb as <- <-.
  apply scan_counts in Hscan as (Hsize & Htotal & Hexp & Hdiff).
  cbn [LLMCache.total_size_bytes LLMCache.total_entries LLMCache.expired_entries] in *.
  cbn [LLMCache.stat_expired_entries LLMCache.stat_total_entries
       LLMCache.stat_active_entries LLMCache.stat_total_size_bytes].
  rewrite length_map_to_list in Htotal. lia.
Qed.

End StatsCounters.

Lemma is_expired_well_typed (e : CacheEntry.t) (w : World) :
  well_typed e -> exists b, CacheEntry.is_expired e w = (Ok b, tick w).
Proof.
  intros (c & a & n & t & Hc & _ & _ & Ht).
  eexists. apply (is_expired_numbers e w c (inject_Z t)).
  - rewrite Hc. reflexivity.
  - rewrite Ht. reflexivity.
Qed.

Section Managed.
Context `{PyRuntime}.

(** A directory that only ever holds what the cache wrote stays that way
    under [set] and [get], and on such a directory [get] never raises. *)
Theorem managed_closed (self : LLMCache.t) (provider model prompt : string)
    (response : json) (temperature : option Q) (ttl : option Z) (kwargs : dict)
    (w : World) :
  managed w ->
  managed (snd (LLMCache.set self provider model prompt response temperature ttl kwargs w)) /\
  managed (snd (LLMCache.get self provider model prompt temperature kwargs w)) /\
  exists v, fst (LLMCache.get self provider model prompt temperature kwargs w) = Ok v.
Proof.
  intros Hm. set (key := _compute_cache_key provider model prompt temperature kwargs).
  split; [|].
  - rewrite set_result. cbn [snd]. fold key. intros k f. cbn [files set_files].
    destruct (decide (k = key)) as [->|Hne].
    + rewrite lookup_insert_eq. intros [= <-]. eexists. split; [reflexivity|].
      eexists _, _, _, _. cbn. repeat split; reflexivity.
    + rewrite lookup_insert_ne by congruence. apply Hm.
  - destruct (files w !! key) as [f|] eqn:Hf.
    + destruct (Hm key f Hf) as (e & -> & Hwt).
      destruct (is_expired_well_typed e w Hwt) as [b Hx].
      pose proof Hwt as (c & a & n & t & Hc & Ha & Hn & Ht).
      destruct b.
      * rewrite (get_expired self _ _ _ _ _ w _ _ e Hf (from_dict_to_dict e) Hx).
        cbn [fst snd]. split; [|eauto].
        intros k f. cbn [files set_files tick]. intros Hk.
        apply lookup_delete_Some in Hk as [_ Hk]. exact (Hm k f Hk).
      * assert (Hcount : num_add (CacheEntry.access_count e) (JInt 1) = Ok (JInt (n + 1)))
          by (rewrite Hn; reflexivity).
        rewrite (get_hit self _ _ _ _ _ w _ _ e _ Hf (from_dict_to_dict e) Hx Hcount).
        cbn [fst snd]. split; [|eauto].
        intros k f. cbn [files set_files tick]. fold key.
        destruct (decide (k = key)) as [->|Hne].
        -- rewrite lookup_insert_eq. intros [= <-]. eexists. split; [reflexivity|].
           exists c, (clock w (S (ticks w))), (n + 1), t. cbn. tauto.
        -- rewrite lookup_insert_ne by congruence. apply Hm.
    + rewrite (get_absent self _ _ _ _ _ w Hf). cbn [fst snd]. split; [exact Hm|eauto].
Qed.

End Managed.

Section ManagedStats.
Context `{PyRuntime}.

Lemma scan_entry_file (a : LLMCache.scan) (k : string) (f : file) (w : World) :
  scan_typed a -> entry_file f ->
  exists a', LLMCache.scan_file a (k, f) w = (Ok a', tick w) /\ scan_typed a' /\
             LLMCache.total_entries a' = LLMCache.total_entries a + 1.
Proof.
  intros ((s & Hs) & Hold & Hnew) (e & -> & Hwt).
  destruct (is_expired_well_typed e w Hwt) as [b Hx].
  destruct Hwt as (c & a0 & n & t & Hc & Ha & Hn & Ht).
  unfold LLMCache.scan_file, try_except. cbn [snd].
  rewrite (bind_eq _ _ w w (CacheEntry.to_dict e)) by reflexivity.
  rewrite (bind_eq _ _ w w e) by (unfold lift; rewrite from_dict_to_dict; reflexivity).
  cbn [LLMCache.total_accesses LLMCache.total_entries LLMCache.oldest_entry
       LLMCache.newest_entry LLMCache.expired_entries LLMCache.total_size_bytes].
  rewrite (bind_eq _ _ w w (JInt (s + n))) by (unfold lift; rewrite Hs, Hn; reflexivity).
  rewrite (bind_eq _ _ w (tick w) b Hx).
  rewrite Hc.
  destruct Hold as [Ho|[qo Ho]]; destruct Hnew as [Hnw|[qn Hnw]]; rewrite Ho, Hnw;
    unfold bind, ret, lift; cbn [py_lt as_number];
    eexists; (split; [reflexivity|]);
    (split; [|reflexivity]);
    unfold scan_typed;
    cbn [LLMCache.total_accesses LLMCache.oldest_entry LLMCache.newest_entry];
    (split; [eauto|]);
    split;
    repeat match goal with
           | |- context [if ?b then _ else _] => destruct b
           end; eauto.
Qed.

Lemma scan_entry_files (l : list (string * file)) (a : LLMCache.scan) (w : World) :
  scan_typed a -> Forall (fun kf => entry_file (snd kf)) l ->
  exists a' w', for_each LLMCache.scan_file l a w = (Ok a', w') /\ scan_typed a' /\
                LLMCache.total_entries a' = LLMCache.total_entries a + Z.of_nat (length l).
Proof.
  intros Ha Hall. revert a w Ha.
  induction Hall as [|[k f] l Hf Hall IH]; intros a w Ha; cbn [for_each length].
  - exists a, w. unfold ret. split; [reflexivity|]. split; [exact Ha|]. cbn. lia.
  - destruct (scan_entry_file a k f w Ha Hf) as (a1 & Hstep & Ha1 & Ht1).
    destruct (IH a1 (tick w) Ha1) as (a' & w' & Hrun & Ha' & Ht').
    exists a', w'. rewrite (bind_eq _ _ w (tick w) a1 Hstep).
    split; [exact Hrun|]. split; [exact Ha'|]. rewrite Nat2Z.inj_succ. lia.
Qed.

Lemma age_days_typed (t : json) (w : World) :
  t = JNull \/ (exists q, t = JFloat q) ->
  exists v w', LLMCache.age_days t w = (Ok v, w').
Proof.
  intros [->|[q ->]]; unfold LLMCache.age_days; cbn [py_truthy].
  - eexists _, _. reflexivity.
  - destruct (negb (Qeq_bool q 0)); eexists _, _; reflexivity.
Qed.

(** On a directory that only holds what the cache wrote, [get_stats]
    returns, and its total is the number of files. *)
Theorem managed_get_stats (self : LLMCache.t) (w : World) :
  managed w ->
  exists s, fst (LLMCache.get_stats self w) = Ok s /\
            LLMCache.stat_total_entries s = Z.of_nat (size (files w)).
Proof.
  intros Hm.
  assert (Hall : Forall (fun kf => entry_file (snd kf)) (map_to_list (files w))).
  { apply Forall_forall. intros [k f] Hin. apply elem_of_map_to_list in Hin.
    exact (Hm k f Hin). }
  destruct (scan_entry_files _ (LLMCache.mkScan 0 0 0 (JInt 0) JNull JNull) w
              (conj (ex_intro _ 0 eq_refl) (conj (or_introl eq_refl) (or_introl eq_refl)))
              Hall)
    as (a & w1 & Hscan & ((s & Hs) & Hold & Hnew) & Htotal).
  unfold LLMCache.get_stats. rewrite (bind_eq _ _ w w1 a Hscan).
  assert (Havg : exists avg,
            (if LLMCache.total_entries a >? 0
             then let* q := lift (num_div (LLMCache.total_accesses a) (LLMCache.total_entries a)) in
                  ret (JFloat (py_round q 2))
             else ret (JInt 0)) w1 = (Ok avg, w1)).
  { destruct (LLMCache.total_entries a >? 0); [|eexists; reflexivity].
    rewrite Hs. eexists. reflexivity. }
  destruct Havg as [avg Havg]. rewrite (bind_eq _ _ w1 w1 avg Havg).
  destruct (age_days_typed _ w1 Hold) as (o & w2 & Ho). rewrite (bind_eq _ _ w1 w2 o Ho).
  destruct (age_days_typed _ w2 Hnew) as (n & w3 & Hn). rewrite (bind_eq _ _ w2 w3 n Hn).
  eexists. split; [reflexivity|].
  cbn [LLMCache.stat_total_entries]. rewrite Htotal, length_map_to_list. cbn. lia.
Qed.

Lemma clear_expired_entry_files (l : list (string * file)) (count : Z) (w : World) :
  Forall (fun kf => entry_file (snd kf)) l ->
  exists n w', for_each LLMCache.clear_expired_file l count w = (Ok n, w').
Proof.
  intros Hall. revert count w.
  induction Hall as [|[k f] l Hf Hall IH]; intros count w; cbn [for_each].
  - eexists _, _. reflexivity.
  - destruct Hf as (e & Hf & Hwt). cbn [snd] in Hf. subst f.
    destruct (is_expired_well_typed e w Hwt) as [b Hx].
    assert (Hstep : exists c1 w1, LLMCache.clear_expired_file count
                      (k, JsonText (CacheEntry.to_dict e)) w = (Ok c1, w1)).
    { unfold LLMCache.clear_expired_file, try_except. cbn [fst snd].
      rewrite (bind_eq _ _ w w (CacheEntry.to_dict e)) by reflexivity.
      rewrite (bind_eq _ _ w w e) by (unfold lift; rewrite from_dict_to_dict; reflexivity).
      rewrite (bind_eq _ _ w (tick w) b Hx).
      destruct b; eexists _, _; reflexivity. }
    destruct Hstep as (c1 & w1 & Hstep). rewrite (bind_eq _ _ w w1 c1 Hstep). apply IH.
Qed.

(** On such a directory [clear_expired] returns, and what it leaves is
    again a directory of the cache's own entries. *)
Theorem managed_clear_expired (self : LLMCache.t) (w : World) :
  managed w ->
  exists n w', LLMCache.clear_expired self w = (Ok n, w') /\ managed w'.
Proof.
  intros Hm.
  assert (Hall : Forall (fun kf => entry_file (snd kf)) (map_to_list (files w))).
  { apply Forall_forall. intros [k f] Hin. apply elem_of_map_to_list in Hin.
    exact (Hm k f Hin). }
  destruct (clear_expired_entry_files _ 0 w Hall) as (n & w' & Hrun).
  exists n, w'. split; [exact Hrun|].
  destruct (clear_expired_loop (map_to_list (files w)) 0 w n w') as (Hsub & _).
  { apply NoDup_fst_map_to_list. }
  { intros k f Hk. apply elem_of_map_to_list. exact Hk. }
  { exact Hrun. }
  intros k f Hk. apply (Hm k f). eapply lookup_weaken; eassumption.
Qed.

End ManagedStats.


(** A cache built by [__init__] never stores a TTL of zero: whatever the
    constructor argument and the override, the entry [set] writes carries a
    non-zero integer TTL. *)
Theorem set_ttl_never_zero `{PyRuntime} (project_id : string) (ttl0 override : option Z)
    (provider model prompt : string) (response : json) (temperature : option Q)
    (kwargs : dict) (w : World) :
  exists z,
    CacheEntry.ttl_seconds <$>
      stored_entry
        (snd (LLMCache.set (LLMCache.__init__ project_id ttl0) provider model prompt
                response temperature override kwargs w))
        (_compute_cache_key provider model prompt temperature kwargs)
    = Some (JInt z) /\ z <> 0.
Proof.
  rewrite stored_entry_after_set. cbn [fmap option_fmap option_map CacheEntry.ttl_seconds].
  eexists. split; [reflexivity|].
  unfold LLMCache.__init__, int_or. cbn [LLMCache.ttl_seconds].
  destruct override as [o|]; destruct ttl0 as [t|];
    repeat match goal with
           | |- context [(?x =? 0)%Z] => destruct (Z.eqb_spec x 0)
           end; try assumption; unfold LLMCache.DEFAULT_TTL_SECONDS; lia.
Qed.

(** The registry hands out one instance per project: a later [get_cache]
    for the same project returns the instance made first and ignores the TTL
    it is given, also when a second decorator is built; only after
    [clear_cache_instance] does a new TTL take effect. *)
Theorem get_cache_first_instance_wins (project_id : string) (ttl1 ttl2 : option Z)
    (reg : registry) (gateway : LLMGateway) (enable_cache : bool) :
  let reg1 := snd (get_cache project_id ttl1 reg) in
  get_cache project_id ttl2 reg1 = (fst (get_cache project_id ttl1 reg), reg1) /\
  CachedLLMGateway.__init__ gateway project_id enable_cache ttl2 reg1 =
    (CachedLLMGateway.mk gateway project_id enable_cache (fst (get_cache project_id ttl1 reg)),
     reg1) /\
  fst (get_cache project_id ttl2 (clear_cache_instance project_id reg1))
    = LLMCache.__init__ project_id ttl2.
Proof.
  intros reg1.
  assert (H1 : get_cache project_id ttl2 reg1 = (fst (get_cache project_id ttl1 reg), reg1)).
  { subst reg1. destruct (reg !! project_id) as [c|] eqn:Hr.
    - assert (Hg : get_cache project_id ttl1 reg = (c, reg))
        by (unfold get_cache; rewrite Hr; reflexivity).
      rewrite Hg. cbn [fst snd]. unfold get_cache. rewrite Hr. reflexivity.
    - assert (Hg : get_cache project_id ttl1 reg =
                (LLMCache.__init__ project_id ttl1,
                 <[project_id := LLMCache.__init__ project_id ttl1]> reg))
        by (unfold get_cache; rewrite Hr; reflexivity).
      rewrite Hg. cbn [fst snd]. unfold get_cache. rewrite lookup_insert_eq. reflexivity. }
  split; [exact H1|]. split.
  - unfold CachedLLMGateway.__init__. rewrite H1. reflexivity.
  - unfold clear_cache_instance, get_cache at 1.
    destruct (bool_decide (is_Some (reg1 !! project_id))) eqn:Hb.
    + rewrite lookup_delete_eq. reflexivity.
    + apply bool_decide_eq_false in Hb.
      destruct (reg1 !! project_id) as [c|] eqn:Hr; [exfalso; apply Hb; eauto|reflexivity].
Qed.

Section GatewayExtras.
Context `{PyRuntime}.

(** A response survives the trip through its cached form. *)
Theorem response_dict_roundtrip (response : LLMResponse) :
  CachedLLMGateway._dict_to_llm_response (CachedLLMGateway._llm_response_to_dict response)
  = Ok response.
Proof. destruct response as [c p m raw lat [pt ct tt]]. reflexivity. Qed.

(** Two calls in a row with the same request: the first misses, asks the
    gateway and stores; the second, while the entry is live, returns the same
    response from the cache, and the gateway has been asked once. *)
Theorem call_twice_second_hits (self : CachedLLMGateway.t) (bundle : PromptBundle)
    (w : World) (response : LLMResponse) :
  let key :=
    _compute_cache_key (CachedLLMGateway.provider self) (CachedLLMGateway.model self)
      (CachedLLMGateway._prompt_bundle_to_string bundle) (Some (temperature bundle))
      [("max_tokens", JInt (max_tokens bundle))] in
  let w1 := snd (CachedLLMGateway.call self bundle w) in
  let w2 := snd (CachedLLMGateway.call self bundle w1) in
  CachedLLMGateway._enable_cache self = true ->
  files w !! key = None ->
  gw_call (CachedLLMGateway._gateway self) (upstream w) bundle = Ok response ->
  (clock w (2 + ticks w) - clock w (ticks w)
     <= inject_Z (LLMCache.ttl_seconds (CachedLLMGateway._cache self)))%Q ->
  fst (CachedLLMGateway.call self bundle w) = Ok response /\
  fst (CachedLLMGateway.call self bundle w1) = Ok response /\
  upstream w2 = (upstream w ++ [CallEv bundle])%list /\
  CacheEntry.access_count <$> stored_entry w2 key = Some (JInt 2).
Proof.
  intros key w1 w2 Hen Habs Hgw Hlive.
  pose proof (get_absent (CachedLLMGateway._cache self) (CachedLLMGateway.provider self)
                (CachedLLMGateway.model self)
                (CachedLLMGateway._prompt_bundle_to_string bundle)
                (Some (temperature bundle)) [("max_tokens", JInt (max_tokens bundle))]
                w Habs) as Hget.
  pose proof (call_unfold self bundle w JNull w Hen Hget) as Hcall1.
  cbn [py_truthy] in Hcall1. rewrite Hgw in Hcall1.
  rewrite set_result in Hcall1. cbn [snd] in Hcall1. fold key in Hcall1.
  set (e1 := CacheEntry.mk _ _ _ _ _ _ _ _ _ _) in Hcall1.
  assert (Hw1 : w1 = set_files (<[key := JsonText (CacheEntry.to_dict e1)]> (files w))
                       (tick (tick (log_upstream (CallEv bundle) w)))).
  { subst w1. rewrite Hcall1. reflexivity. }
  assert (Hs1 : stored_entry w1 key = Some e1).
  { rewrite Hw1. apply stored_entry_insert. }
  assert (Hget1 : LLMCache.get (CachedLLMGateway._cache self) (CachedLLMGateway.provider self)
                    (CachedLLMGateway.model self)
                    (CachedLLMGateway._prompt_bundle_to_string bundle)
                    (Some (temperature bundle)) [("max_tokens", JInt (max_tokens bundle))] w1
                  = (Ok (CacheEntry.response e1),
                     set_files
                       (<[key := JsonText (CacheEntry.to_dict
                            (accessed e1 (clock w1 (S (ticks w1))) (JInt (1 + 1))))]> (files w1))
                       (tick (tick w1)))).
  { apply (get_live_entry _ _ _ _ _ _ w1 e1 (clock w (ticks w))
             (LLMCache.ttl_seconds (CachedLLMGateway._cache self)) 1 Hs1
             eq_refl eq_refl eq_refl).
    rewrite Hw1. cbn [clock ticks set_files tick log_upstream]. exact Hlive. }
  pose proof (call_unfold self bundle w1 _ _ Hen Hget1) as Hcall2.
  cbn [CacheEntry.response e1] in Hcall2.
  change (py_truthy (CachedLLMGateway._llm_response_to_dict response)) with true in Hcall2.
  cbn iota in Hcall2.
  assert (Hback : CachedLLMGateway._dict_to_llm_response
                    (CachedLLMGateway._llm_response_to_dict response) = Ok response)
    by (destruct response as [c p m raw lat [pt ct tt]]; reflexivity).
  rewrite Hback in Hcall2.
  split; [rewrite Hcall1; reflexivity|].
  split; [rewrite Hcall2; reflexivity|].
  subst w2. rewrite Hcall2. cbn [snd]. split.
  - cbn [upstream set_files tick]. rewrite Hw1. reflexivity.
  - rewrite stored_entry_insert. reflexivity.
Qed.

(** A cached dict that is not empty but lacks [content] (and [usage])
    makes [call] raise [KeyError]: the failure is not turned into a miss, the
    gateway is not asked. *)
Theorem call_hit_without_content_raises (self : CachedLLMGateway.t) (bundle : PromptBundle)
    (w w1 : World) (kvs : dict) :
  CachedLLMGateway._enable_cache self = true ->
  LLMCache.get (CachedLLMGateway._cache self) (CachedLLMGateway.provider self)
    (CachedLLMGateway.model self) (CachedLLMGateway._prompt_bundle_to_string bundle)
    (Some (temperature bundle)) [("max_tokens", JInt (max_tokens bundle))] w
  = (Ok (JObj kvs), w1) ->
  kvs <> [] ->
  dict_get "usage" kvs = None ->
  dict_get "content" kvs = None ->
  CachedLLMGateway.call self bundle w = (Raise KeyError, w1) /\
  upstream w1 = upstream w.
Proof.
  intros Hen Hget Hne Hu Hc.
  rewrite (call_unfold self bundle w _ _ Hen Hget).
  destruct kvs as [|kv kvs]; [congruence|]. cbn [py_truthy].
  unfold CachedLLMGateway._dict_to_llm_response. rewrite Hu.
  unfold CachedLLMGateway.bind_result, CachedLLMGateway.dict_item. rewrite Hc.
  split; [reflexivity|].
  pose proof (get_frame (CachedLLMGateway._cache self) (CachedLLMGateway.provider self)
                (CachedLLMGateway.model self)
                (CachedLLMGateway._prompt_bundle_to_string bundle)
                (Some (temperature bundle)) [("max_tokens", JInt (max_tokens bundle))] w)
    as [Hup _].
  rewrite Hget in Hup. exact Hup.
Qed.

End GatewayExtras.

(** [invalidate] reports whether the key had a file, leaves no file under
    the key, and touches no other key. *)
Theorem invalidate_spec (self : LLMCache.t) (key : string) (w : World) (k : string) :
  k <> key ->
  fst (LLMCache.invalidate self key w) = Ok (bool_decide (is_Some (files w !! key))) /\
  files (snd (LLMCache.invalidate self key w)) !! key = None /\
  files (snd (LLMCache.invalidate self key w)) !! k = files w !! k.
Proof.
  intros Hk.
  assert (Hk' : key <> k) by (intros Heq; apply Hk; symmetry; exact Heq).
  unfold LLMCache.invalidate, bind, path_exists.
  destruct (bool_decide (is_Some (files w !! key))) eqn:Hb; cbn [fst snd files set_files unlink ret].
  - cbn. rewrite lookup_delete_eq, lookup_delete_ne by exact Hk'. tauto.
  - apply bool_decide_eq_false in Hb. split; [reflexivity|]. split; [|reflexivity].
    destruct (files w !! key) eqn:Hf; [|reflexivity]. exfalso. apply Hb. eauto.
Qed.

Section ClearThenCall.
Context `{PyRuntime}.

(** After [clear_cache] no stale answer is served: the next [call] goes to
    the gateway, returns its response, and the directory then holds exactly
    the one fresh entry. *)
Theorem call_after_clear_cache (self : CachedLLMGateway.t) (bundle : PromptBundle)
    (w : World) (response : LLMResponse) :
  let w1 := snd (CachedLLMGateway.clear_cache self w) in
  let r := CachedLLMGateway.call self bundle w1 in
  CachedLLMGateway._enable_cache self = true ->
  gw_call (CachedLLMGateway._gateway self) (upstream w) bundle = Ok response ->
  fst (CachedLLMGateway.clear_cache self w) = Ok (Z.of_nat (size (files w))) /\
  fst r = Ok response /\
  upstream (snd r) = (upstream w ++ [CallEv bundle])%list /\
  size (files (snd r)) = 1%nat.
Proof.
  intros w1 r Hen Hgw.
  assert (Hw1 : w1 = set_files ∅ w).
  { subst w1. unfold CachedLLMGateway.clear_cache. rewrite clear_all_result. reflexivity. }
  split; [unfold CachedLLMGateway.clear_cache; rewrite clear_all_result; reflexivity|].
  assert (Hget : LLMCache.get (CachedLLMGateway._cache self) (CachedLLMGateway.provider self)
                   (CachedLLMGateway.model self)
                   (CachedLLMGateway._prompt_bundle_to_string bundle)
                   (Some (temperature bundle)) [("max_tokens", JInt (max_tokens bundle))] w1
                 = (Ok JNull, w1)).
  { apply get_absent. rewrite Hw1. apply lookup_empty. }
  subst r. rewrite (call_unfold self bundle w1 JNull w1 Hen Hget). cbn [py_truthy].
  assert (Hup : upstream w1 = upstream w) by (rewrite Hw1; reflexivity).
  rewrite Hup, Hgw. cbn [fst snd]. split; [reflexivity|].
  rewrite set_result. cbn [snd upstream files set_files tick log_upstream].
  rewrite Hup. split; [reflexivity|].
  rewrite Hw1. cbn [files set_files]. rewrite insert_empty. apply map_size_singleton.
Qed.

End ClearThenCall.

(** ** Witnesses of the further properties *)

Lemma expired_world_managed : managed expired_world.
Proof.
  intros k f Hk. unfold expired_world in Hk. rewrite set_result in Hk.
  cbn [snd files set_files ticking_world] in Hk.
  apply lookup_insert_Some in Hk as [[_ <-]|[_ Hk]].
  - eexists. split; [reflexivity|]. eexists _, _, _, _. cbn. repeat split; reflexivity.
  - rewrite lookup_empty in Hk. discriminate.
Qed.

Lemma get_other_keys_untouched_witness :
  files (snd (LLMCache.get (H := example_runtime) example_cache "openai" "gpt-4o" "Hello"
                (Some (7 # 10)) [] expired_world)) !! bundle_key
  = files expired_world !! bundle_key.
Proof.
  apply get_other_keys_untouched. intros Heq. vm_compute in Heq. discriminate.
Defined.

Lemma set_twice_last_wins_witness :
  let w1 := snd (LLMCache.set (H := example_runtime) example_cache "openai" "gpt-4o" "Hello"
                   (JObj [("content", JStr "Salut")]) (Some (7 # 10)) None [] ticking_world) in
  let w2 := snd (LLMCache.set (H := example_runtime) example_cache "openai" "gpt-4o" "Hello"
                   (JObj [("content", JStr "Bonjour")]) (Some (7 # 10)) (Some 60) [] w1) in
  fst (LLMCache.get (H := example_runtime) example_cache "openai" "gpt-4o" "Hello"
         (Some (7 # 10)) [] w2)
  = Ok (JObj [("content", JStr "Bonjour")]).
Proof.
  intros w1 w2.
  refine (proj1 (set_twice_last_wins (H := example_runtime) example_cache "openai" "gpt-4o"
            "Hello" (JObj [("content", JStr "Salut")]) (JObj [("content", JStr "Bonjour")])
            (Some (7 # 10)) None (Some 60) [] ticking_world _)).
  vm_compute. discriminate.
Defined.

Lemma invalidate_spec_witness :
  fst (LLMCache.invalidate example_cache bundle_key expired_world) = Ok true /\
  files (snd (LLMCache.invalidate example_cache bundle_key expired_world)) !! bundle_key = None.
Proof.
  destruct (invalidate_spec example_cache bundle_key expired_world "other")
    as (Hr & Hgone & _).
  - intros Heq. vm_compute in Heq. discriminate.
  - split; [|exact Hgone]. rewrite Hr. vm_compute. reflexivity.
Defined.

Lemma clear_expired_result_witness :
  files (set_files ∅ (tick expired_world)) ⊆ files expired_world /\
  1 = Z.of_nat (size (files expired_world))
      - Z.of_nat (size (files (set_files ∅ (tick expired_world)))).
Proof.
  destruct (clear_expired_result example_cache expired_world 1
              (set_files ∅ (tick expired_world))) as (Hsub & _ & Hn).
  - vm_compute. reflexivity.
  - split; [exact Hsub|exact Hn].
Defined.

Lemma get_stats_counters_witness :
  exists s,
    fst (LLMCache.get_stats (H := example_runtime) example_cache expired_world) = Ok s /\
    0 <= LLMCache.stat_expired_entries s <= LLMCache.stat_total_entries s /\
    LLMCache.stat_total_entries s <= Z.of_nat (size (files expired_world)) /\
    0 <= LLMCache.stat_active_entries s.
Proof.
  eexists. split; [vm_compute; reflexivity|].
  destruct (get_stats_counters (H := example_runtime) example_cache expired_world _
              ltac:(vm_compute; reflexivity)) as (He & Ht & Ha & _).
  split; [exact He|]. split; [exact Ht|exact Ha].
Defined.

Lemma managed_closed_witness :
  exists v,
    fst (LLMCache.get (H := example_runtime) example_cache "openai" "gpt-4o" "Hello"
           (Some (7 # 10)) [] expired_world) = Ok v.
Proof.
  exact (proj2 (proj2 (managed_closed (H := example_runtime) example_cache "openai" "gpt-4o"
                         "Hello" JNull (Some (7 # 10)) None [] expired_world
                         expired_world_managed))).
Defined.

Lemma managed_get_stats_witness :
  exists s,
    fst (LLMCache.get_stats (H := example_runtime) example_cache expired_world) = Ok s /\
    LLMCache.stat_total_entries s = Z.of_nat (size (files expired_world)).
Proof.
  exact (managed_get_stats (H := example_runtime) example_cache expired_world
           expired_world_managed).
Defined.

Lemma managed_clear_expired_witness :
  exists n w', LLMCache.clear_expired example_cache expired_world = (Ok n, w') /\ managed w'.
Proof.
  exact (managed_clear_expired example_cache expired_world expired_world_managed).
Defined.


Lemma call_twice_second_hits_witness :
  let self := CachedLLMGateway.mk answering_gateway "project" true example_cache in
  let w1 := snd (CachedLLMGateway.call (H := example_runtime) self example_bundle
                   ticking_world) in
  fst (CachedLLMGateway.call (H := example_runtime) self example_bundle w1)
    = Ok example_response /\
  upstream (snd (CachedLLMGateway.call (H := example_runtime) self example_bundle w1))
    = (upstream ticking_world ++ [CallEv example_bundle])%list.
Proof.
  intros self w1.
  destruct (call_twice_second_hits (H := example_runtime) self example_bundle ticking_world
              example_response) as (_ & Hhit & Hup & _).
  - reflexivity.
  - apply lookup_empty.
  - reflexivity.
  - vm_compute. discriminate.
  - split; [exact Hhit|exact Hup].
Defined.

Lemma call_hit_without_content_raises_witness :
  let self := CachedLLMGateway.mk answering_gateway "project" true example_cache in
  fst (CachedLLMGateway.call (H := example_runtime) self example_bundle contentless_world)
  = Raise KeyError.
Proof.
  intros self.
  destruct (call_hit_without_content_raises (H := example_runtime) self example_bundle
              contentless_world
              (snd (LLMCache.get (H := example_runtime) example_cache "openai" "gpt-4o"
                      (CachedLLMGateway._prompt_bundle_to_string (H := example_runtime)
                         example_bundle)
                      (Some (temperature example_bundle))
                      [("max_tokens", JInt (max_tokens example_bundle))] contentless_world))
              [("note", JStr "draft")]) as [Hcall _].
  - reflexivity.
  - apply injective_projections; cbn [fst snd]; [vm_compute; reflexivity|reflexivity].
  - discriminate.
  - reflexivity.
  - reflexivity.
  - rewrite Hcall. reflexivity.
Defined.

Lemma call_after_clear_cache_witness :
  let self := CachedLLMGateway.mk answering_gateway "project" true example_cache in
  let w1 := snd (CachedLLMGateway.clear_cache self expired_world) in
  fst (CachedLLMGateway.call (H := example_runtime) self example_bundle w1)
  = Ok example_response.
Proof.
  intros self w1.
  destruct (call_after_clear_cache (H := example_runtime) self example_bundle expired_world
              example_response) as (_ & Hr & _).
  - reflexivity.
  - reflexivity.
  - exact Hr.
Defined.
